(** * Webcam surveillance: a model of [main.py] and its properties

    The program watches a camera, reports motion to a Telegram chat, and
    sends one photo a day at a fixed time.  This development embeds the
    program's decision logic in Rocq, function by function, and proves
    properties about it.

    Conventions of the embedding:
    - a Python [str] is the [string] of the bytes of its UTF-8 encoding;
      [x in s] is [contains s x], [s.replace(old, new)] is
      [replace s old new] (an encoded word occurs in an encoded text only at
      character boundaries, so searching bytes is searching characters) and
      [len(s)] is [len s], the number of characters, not of bytes;
    - Python floats that carry times and areas are rationals ([Q]); the
      program only subtracts and compares them;
    - a call that may raise returns a [result]; [try]/[except] is a match;
    - [cv2], the camera, the clock and the Telegram bot are outside the
      program: their answers are inputs of the model. *)

From Stdlib Require Import List Bool Arith ZArith QArith Lia Lqa Ascii String.
Import ListNotations.

Open Scope string_scope.

(** ** Python strings *)

Module PyStr.

(** [s.startswith(p)] *)
Fixpoint startswith (s p : string) : bool :=
  match p, s with
  | EmptyString, _ => true
  | String _ _, EmptyString => false
  | String a p', String b s' => Ascii.eqb a b && startswith s' p'
  end.

(** [x in s] *)
Fixpoint contains (s x : string) : bool :=
  startswith s x ||
  match s with
  | EmptyString => false
  | String _ s' => contains s' x
  end.

(** [s[n:]] *)
Fixpoint drop (n : nat) (s : string) : string :=
  match n, s with
  | O, _ => s
  | S _, EmptyString => EmptyString
  | S n', String _ s' => drop n' s'
  end.

(** The scan of [s.replace(old, new)] for a non-empty [old]: left to right,
    each match is replaced and the scan resumes after it.  [fuel] bounds the
    number of steps; [length s] is always enough. *)
Fixpoint replace_scan (fuel : nat) (s old new : string) : string :=
  match fuel with
  | O => s
  | S fuel' =>
      match s with
      | EmptyString => EmptyString
      | String c s' =>
          if startswith s old
          then new ++ replace_scan fuel' (drop (String.length old) s) old new
          else String c (replace_scan fuel' s' old new)
      end
  end.

(** With an empty [old], Python puts [new] before every character and at
    the end. *)
Fixpoint replace_empty (s new : string) : string :=
  match s with
  | EmptyString => new
  | String c s' => new ++ String c (replace_empty s' new)
  end.

(** [s.replace(old, new)] *)
Definition replace (s old new : string) : string :=
  match old with
  | EmptyString => replace_empty s new
  | String _ _ => replace_scan (String.length s) s old new
  end.

(** A byte [10xxxxxx] continues a character begun by an earlier byte. *)
Definition is_continuation (c : ascii) : bool :=
  match c with
  | Ascii _ _ _ _ _ _ b6 b7 => b7 && negb b6
  end.

(** [len(s)]: the characters of [s], one for each byte that begins one. *)
Fixpoint len (s : string) : nat :=
  match s with
  | EmptyString => O
  | String c s' => if is_continuation c then len s' else S (len s')
  end.

(** No character of [w] is an asterisk. *)
Fixpoint star_free (w : string) : bool :=
  match w with
  | EmptyString => true
  | String c w' => negb (Ascii.eqb c "*"%char) && star_free w'
  end.

Definition MASK : string := "***".

End PyStr.

(** ** Exceptions and results *)

Inductive exn_class := ValueError | TelegramError | OverflowError | OtherException.

(** An exception: its class and [str(e)]. *)
Record exn := Exn { class_of : exn_class; str : string }.

Inductive result (A : Type) :=
| Ok (a : A)
| Raise (e : exn).
Arguments Ok {A} a.
Arguments Raise {A} e.

Definition bind {A B} (r : result A) (k : A -> result B) : result B :=
  match r with
  | Ok a => k a
  | Raise e => Raise e
  end.

Notation "x <- r ;; k" := (bind r (fun x => k))
  (at level 61, r at next level, right associativity).

(** [a > b] on Python numbers *)
Definition Qgtb (a b : Q) : bool := negb (Qle_bool a b).

(** ** Configuration (lines 12-28) *)

Definition MIN_CONTOUR_AREA : Q := 5000.
Definition SEND_INTERVAL : Q := 3.

(** ** Logging (lines 30-71) *)

Module Logging.
Import PyStr.

Inductive level := DEBUG | INFO | WARNING | ERROR.

Definition levelno (l : level) : Z :=
  match l with DEBUG => 10 | INFO => 20 | WARNING => 30 | ERROR => 40 end.

Definition levelname (l : level) : string :=
  match l with
  | DEBUG => "DEBUG" | INFO => "INFO" | WARNING => "WARNING" | ERROR => "ERROR"
  end.

Record LogRecord := {
  asctime : string;
  name : string;
  lvl : level;
  message : string
}.

(** [logging.Formatter.format] with the format string of [setup_logging]:
    ['%(asctime)s - %(name)s - %(levelname)s - %(message)s'] *)
Definition Formatter_format (r : LogRecord) : string :=
  asctime r ++ " - " ++ name r ++ " - " ++ levelname (lvl r) ++ " - " ++ message r.

(** The loop of [SecureFormatter.format]. *)
Fixpoint mask_secrets (secrets : list string) (formatted : string) : string :=
  match secrets with
  | [] => formatted
  | secret :: rest =>
      mask_secrets rest
        (if negb (secret =? "") && (4 <? len secret)%nat
         then replace formatted secret MASK
         else formatted)
  end.

(** [SecureFormatter.format] *)
Definition SecureFormatter_format (secrets : list string) (r : LogRecord) : string :=
  mask_secrets secrets (Formatter_format r).

(** [setup_logging] (lines 47-68): the root logger has one handler, whose
    formatter masks the two credentials. *)
Definition setup_logging (TELEGRAM_TOKEN CHAT_ID : string) : LogRecord -> string :=
  SecureFormatter_format [TELEGRAM_TOKEN; CHAT_ID].

(** The root logger is set to [INFO]: a call below that level produces no
    record. *)
Definition enabled (l : level) : bool := (levelno INFO <=? levelno l)%Z.

End Logging.

(** ** Calendar time (the part of [datetime] the scheduler uses) *)

Module DateTime.

(** A naive [datetime]: the day as [date.toordinal()] and the time of day in
    microseconds since midnight. *)
Record datetime := { ordinal : Z; micro : Z }.

Definition MINORDINAL : Z := 1.          (* 0001-01-01 *)
Definition MAXORDINAL : Z := 3652059.    (* 9999-12-31 *)
Definition DAY_MICROS : Z := 86400 * 1000000.

Definition valid (d : datetime) : Prop :=
  (MINORDINAL <= ordinal d <= MAXORDINAL /\ 0 <= micro d < DAY_MICROS)%Z.

(** [dt_time(h, m)] as microseconds since midnight *)
Definition dt_time (h m : Z) : Z := ((h * 60 + m) * 60 * 1000000)%Z.

(** [datetime.combine(date, time)] *)
Definition combine (date : Z) (time : Z) : datetime :=
  {| ordinal := date; micro := time |}.

(** [a >= b] *)
Definition geb (a b : datetime) : bool :=
  (ordinal b <? ordinal a)%Z || ((ordinal a =? ordinal b)%Z && (micro b <=? micro a)%Z).

Definition lt (a b : datetime) : Prop :=
  (ordinal a < ordinal b \/ (ordinal a = ordinal b /\ micro a < micro b))%Z.

Definition le (a b : datetime) : Prop := lt a b \/ a = b.

(** [d + timedelta(days=1)]: raises [OverflowError] past 9999-12-31. *)
Definition add_one_day (d : datetime) : result datetime :=
  if (ordinal d + 1 <=? MAXORDINAL)%Z
  then Ok {| ordinal := ordinal d + 1; micro := micro d |}
  else Raise (Exn OverflowError "date value out of range").

(** [(a - b).total_seconds()] *)
Definition total_seconds_between (a b : datetime) : Q :=
  (((ordinal a - ordinal b) * DAY_MICROS + (micro a - micro b)) # 1000000)%Q.

End DateTime.

(** Daily photo settings (line 28) *)
Definition DAILY_PHOTO_TIME : Z := DateTime.dt_time 14 0.

(** The last instant the scheduler can aim at: 14:00 on 9999-12-31. *)
Definition LAST_FIRE : DateTime.datetime :=
  DateTime.combine DateTime.MAXORDINAL DAILY_PHOTO_TIME.

(** ** The outside world *)

(** The [cv2] calls of [process_frame], at the arguments the program passes.
    [ndarray] is the type of images (frames, grey images, masks), [contour]
    that of contours, [MOG2] the state of the background subtractor.  Every
    call may raise. *)
Inductive morph_op := MORPH_CLOSE | MORPH_OPEN.

Record cv2_module (ndarray contour MOG2 : Type) := {
  createBackgroundSubtractorMOG2 : MOG2;            (* history 500, varThreshold 50 *)
  cvtColor : ndarray -> result ndarray;             (* COLOR_BGR2GRAY *)
  GaussianBlur : ndarray -> result ndarray;         (* (21, 21), 0 *)
  MOG2_apply : MOG2 -> ndarray -> MOG2 * result ndarray;
  morphologyEx : ndarray -> morph_op -> result ndarray;   (* 5x5 ellipse *)
  findContours : ndarray -> result (list contour);  (* RETR_EXTERNAL *)
  contourArea : contour -> result Q
}.
Arguments createBackgroundSubtractorMOG2 {ndarray contour MOG2} _.
Arguments cvtColor {ndarray contour MOG2} _ _.
Arguments GaussianBlur {ndarray contour MOG2} _ _.
Arguments MOG2_apply {ndarray contour MOG2} _ _ _.
Arguments morphologyEx {ndarray contour MOG2} _ _ _.
Arguments findContours {ndarray contour MOG2} _ _.
Arguments contourArea {ndarray contour MOG2} _ _.

(** What one [send_photo] call meets. *)
Inductive send_env :=
| SaveRaised (e : exn)     (* [cv2.imwrite] or [open] raised; the bot is not called *)
| BotRaised (e : exn)      (* [bot.send_photo] raised *)
| BotReturned.             (* the photo was delivered *)

(** What [cap.read()] does in one cycle. *)
Inductive camera_read (ndarray : Type) :=
| FrameRead (frame : ndarray)      (* [ret] is true *)
| NoFrame                          (* [ret] is false *)
| ReadRaised (e : exn)
| KeyboardInterrupt.
Arguments FrameRead {ndarray} frame.
Arguments NoFrame {ndarray}.
Arguments ReadRaised {ndarray} e.
Arguments KeyboardInterrupt {ndarray}.

(** The inputs of one cycle of [run]. *)
Record cycle_env (ndarray : Type) := {
  read : camera_read ndarray;
  time_time : Q;            (* [time.time()] *)
  time_ctime : string;      (* [time.ctime()] *)
  send : send_env
}.
Arguments read {ndarray} _.
Arguments time_time {ndarray} _.
Arguments time_ctime {ndarray} _.
Arguments send {ndarray} _.

(** The inputs of one firing of the daily scheduler. *)
Record fire_env := {
  fire_stamp : string;      (* [datetime.now().strftime("%Y-%m-%d %H:%M")] *)
  fire_ctime : string;
  fire_send : send_env
}.

(** What the program does to the outside, in order. *)
Inductive event (ndarray : Type) :=
| Logged (l : Logging.level) (msg : string)   (* a record handed to the handler *)
| VideoCapture                                (* the camera is acquired *)
| CapRelease
| Imwrite (photo : ndarray)                   (* ['motion.jpg'] is written *)
| BotSendPhoto (photo : ndarray) (caption : string)
| RemoveFile                                  (* ['motion.jpg'] is removed *)
| Sleep (seconds : Q).
Arguments Logged {ndarray} l msg.
Arguments VideoCapture {ndarray}.
Arguments CapRelease {ndarray}.
Arguments Imwrite {ndarray} photo.
Arguments BotSendPhoto {ndarray} photo caption.
Arguments RemoveFile {ndarray}.
Arguments Sleep {ndarray} seconds.

(** ** How the process ends (lines 245-246)

    The interpreter ends with status 1 on an exception nobody caught and
    with status 0 when the script runs to its end.  A [KeyboardInterrupt]
    nobody caught makes it die of [SIGINT], which a shell reports as
    128 + 2. *)
Definition STATUS_UNCAUGHT : Z := 1.
Definition STATUS_DONE : Z := 0.
Definition STATUS_INTERRUPT : Z := 130.

(** ** The program (lines 73-243) *)

Section Program.
Import PyStr Logging DateTime.

Context {ndarray contour MOG2 : Type}.
Variable cv2 : cv2_module ndarray contour MOG2.
Variables TELEGRAM_TOKEN CHAT_ID : string.
(** [strftime("%Y-%m-%d %H:%M:%S")] and ["%.1f"] *)
Variable strftime : datetime -> string.
Variable format_1f : Q -> string.

Abbreviation events := (list (event ndarray)).
Infix "+++" := (@app (event ndarray)) (at level 60, right associativity).

(** [logger.<level>(msg)] *)
Definition log (l : level) (msg : string) : events :=
  if enabled l then [Logged l msg] else [].

Record MotionDetector := {
  last_sent : Q;
  frame_count : Z;
  latest_frame : option ndarray;
  back_sub : MOG2
}.

Definition set_latest_frame (f : option ndarray) (d : MotionDetector) :=
  {| last_sent := last_sent d; frame_count := frame_count d;
     latest_frame := f; back_sub := back_sub d |}.
Definition set_last_sent (t : Q) (d : MotionDetector) :=
  {| last_sent := t; frame_count := frame_count d;
     latest_frame := latest_frame d; back_sub := back_sub d |}.
Definition set_back_sub (b : MOG2) (d : MotionDetector) :=
  {| last_sent := last_sent d; frame_count := frame_count d;
     latest_frame := latest_frame d; back_sub := b |}.

(** [frame.copy()] *)
Definition copy (frame : ndarray) : ndarray := frame.

(** *** [MotionDetector.__init__] (lines 74-98) *)

Definition py_bool (b : bool) : string := if b then "True" else "False".

Definition MotionDetector_init (isOpened : bool) : result (MotionDetector * events) :=
  if (TELEGRAM_TOKEN =? "") || negb (contains TELEGRAM_TOKEN ":")
  then Raise (Exn ValueError "Invalid Telegram bot token format")
  else Ok ({| last_sent := 0; frame_count := 0; latest_frame := None;
              back_sub := createBackgroundSubtractorMOG2 cv2 |},
           [VideoCapture]
           +++ log INFO "Motion detector initialized successfully"
           +++ log INFO ("Camera status: " ++ py_bool isOpened)
           +++ log INFO "Min contour area: 5000"
           +++ log INFO "Send interval: 3 seconds"
           +++ log INFO "Daily photo time: 14:00"
           +++ log INFO ("Bot initialized: "
                        ++ py_bool (negb (TELEGRAM_TOKEN =? "") && negb (CHAT_ID =? "")))).

(** *** [send_photo] (lines 100-129) *)

(** The sanitising of lines 121-126. *)
Definition sanitize (error_msg : string) : string :=
  let error_msg :=
    if contains error_msg TELEGRAM_TOKEN
    then replace error_msg TELEGRAM_TOKEN "***" else error_msg in
  if contains error_msg CHAT_ID
  then replace error_msg CHAT_ID "***" else error_msg.

(** The two [except] clauses. *)
Definition send_photo_except (e : exn) : events :=
  match class_of e with
  | TelegramError => log ERROR ("Telegram send error: " ++ sanitize (str e))
  | _ => log ERROR ("Unexpected error sending photo: " ++ str e)
  end.

(** [caption or f'Motion detected! ({time.ctime()})'] *)
Definition caption_or_default (caption : option string) (ctime : string) : string :=
  match caption with
  | Some (String _ _ as c) => c
  | _ => "Motion detected! (" ++ ctime ++ ")"
  end.

Definition send_photo (frame : ndarray) (caption : option string)
    (ctime : string) (w : send_env) : events :=
  Imwrite frame ::
  match w with
  | SaveRaised e => send_photo_except e
  | BotRaised e =>
      BotSendPhoto frame (caption_or_default caption ctime) :: send_photo_except e
  | BotReturned =>
      BotSendPhoto frame (caption_or_default caption ctime)
      :: log INFO "Photo sent successfully to Telegram" +++ [RemoveFile]
  end.

(** *** [process_frame] (lines 131-162) *)

(** The loop of lines 150-156: [Ok true] at the first contour whose area is
    above the threshold.  The [debug] call produces no record. *)
Fixpoint any_significant (contours : list contour) : result bool :=
  match contours with
  | [] => Ok false
  | c :: rest =>
      area <- contourArea cv2 c ;;
      if Qgtb area MIN_CONTOUR_AREA then Ok true else any_significant rest
  end.

(** Lines 135-147: the contours of the frame. *)
Definition extract_contours (bs : MOG2) (frame : ndarray)
    : MOG2 * result (list contour) :=
  match (gray <- cvtColor cv2 frame ;; GaussianBlur cv2 gray) with
  | Raise e => (bs, Raise e)
  | Ok gray =>
      let (bs', fg) := MOG2_apply cv2 bs gray in
      (bs', fg_mask <- fg ;;
            fg_mask <- morphologyEx cv2 fg_mask MORPH_CLOSE ;;
            fg_mask <- morphologyEx cv2 fg_mask MORPH_OPEN ;;
            findContours cv2 fg_mask)
  end.

(** The body of the [try]. *)
Definition detect (bs : MOG2) (frame : ndarray) : MOG2 * result bool :=
  let (bs', contours) := extract_contours bs frame in
  (bs', cs <- contours ;; any_significant cs).

(** A step of the analysis raises [e]: one of the six calls on images, or
    [contourArea] on a contour that the loop reaches (every contour before it
    has an area at or below the threshold). *)
Inductive step_raises (bs : MOG2) (frame : ndarray) (e : exn) : Prop :=
| cvtColor_raises :
    cvtColor cv2 frame = Raise e ->
    step_raises bs frame e
| GaussianBlur_raises gray :
    cvtColor cv2 frame = Ok gray ->
    GaussianBlur cv2 gray = Raise e ->
    step_raises bs frame e
| apply_raises gray blurred :
    cvtColor cv2 frame = Ok gray ->
    GaussianBlur cv2 gray = Ok blurred ->
    snd (MOG2_apply cv2 bs blurred) = Raise e ->
    step_raises bs frame e
| close_raises gray blurred fg :
    cvtColor cv2 frame = Ok gray ->
    GaussianBlur cv2 gray = Ok blurred ->
    snd (MOG2_apply cv2 bs blurred) = Ok fg ->
    morphologyEx cv2 fg MORPH_CLOSE = Raise e ->
    step_raises bs frame e
| open_raises gray blurred fg closed :
    cvtColor cv2 frame = Ok gray ->
    GaussianBlur cv2 gray = Ok blurred ->
    snd (MOG2_apply cv2 bs blurred) = Ok fg ->
    morphologyEx cv2 fg MORPH_CLOSE = Ok closed ->
    morphologyEx cv2 closed MORPH_OPEN = Raise e ->
    step_raises bs frame e
| findContours_raises gray blurred fg closed opened :
    cvtColor cv2 frame = Ok gray ->
    GaussianBlur cv2 gray = Ok blurred ->
    snd (MOG2_apply cv2 bs blurred) = Ok fg ->
    morphologyEx cv2 fg MORPH_CLOSE = Ok closed ->
    morphologyEx cv2 closed MORPH_OPEN = Ok opened ->
    findContours cv2 opened = Raise e ->
    step_raises bs frame e
| contourArea_raises before c after :
    snd (extract_contours bs frame) = Ok (before ++ c :: after)%list ->
    (forall c', In c' before ->
       exists a, contourArea cv2 c' = Ok a /\ (a <= MIN_CONTOUR_AREA)%Q) ->
    contourArea cv2 c = Raise e ->
    step_raises bs frame e.

Definition process_frame (d : MotionDetector) (frame : ndarray)
    : MotionDetector * bool * events :=
  let (bs', r) := detect (back_sub d) frame in
  match r with
  | Ok motion_detected => (set_back_sub bs' d, motion_detected, [])
  | Raise e =>
      (set_back_sub bs' d, false, log ERROR ("Error processing frame: " ++ str e))
  end.

(** *** [run] (lines 198-229) *)

Inductive loop_flow := Continue | Left.

(** The [finally] clause. *)
Definition run_finally : events := CapRelease :: log INFO "Motion detector stopped".

(** The test of line 215, after [motion]. *)
Definition cooldown_over (current_time last : Q) : bool :=
  Qgtb (current_time - last) SEND_INTERVAL.

(** One pass through the body of the [while]. *)
Definition run_cycle (d : MotionDetector) (w : cycle_env ndarray)
    : MotionDetector * events * loop_flow :=
  match read w with
  | KeyboardInterrupt =>
      (d, log INFO "Received interrupt signal - shutting down" +++ run_finally, Left)
  | ReadRaised e =>
      (d, log ERROR ("Unexpected error in main loop: " ++ str e) +++ run_finally, Left)
  | NoFrame =>
      (d, log ERROR "Error reading frame from camera" +++ run_finally, Left)
  | FrameRead frame =>
      let d := set_latest_frame (Some (copy frame)) d in
      let '(d, motion, ev) := process_frame d frame in
      let current_time := time_time w in
      if motion && cooldown_over current_time (last_sent d)
      then (set_last_sent current_time d,
            ev +++ log INFO "Motion detected - preparing to send photo"
               +++ send_photo frame None (time_ctime w) (send w)
               +++ [Sleep (1 # 10)],
            Continue)
      else (d, ev +++ [Sleep (1 # 10)], Continue)
  end.

(** *** [daily_photo_scheduler] (lines 164-196) *)

(** Lines 172-176. *)
Definition next_fire (now : datetime) : result datetime :=
  let scheduled_datetime := combine (ordinal now) DAILY_PHOTO_TIME in
  if geb now scheduled_datetime
  then add_one_day scheduled_datetime
  else Ok scheduled_datetime.

(** Lines 169-186: from the top of the loop into the sleep. *)
Definition scheduler_plan (now : datetime) : result (datetime * events) :=
  scheduled_datetime <- next_fire now ;;
  let seconds_until_scheduled := total_seconds_between scheduled_datetime now in
  Ok (scheduled_datetime,
      log INFO ("Next daily photo scheduled at: " ++ strftime scheduled_datetime
                ++ " (in " ++ format_1f (seconds_until_scheduled / 3600) ++ " hours)")
      +++ [Sleep seconds_until_scheduled]).

(** Lines 188-196: after the sleep. *)
Definition scheduler_fire (d : MotionDetector) (w : fire_env) : events :=
  match latest_frame d with
  | Some frame =>
      log INFO "Sending scheduled daily photo"
      +++ send_photo frame
           (Some ("Daily photo at 14:00:00 (" ++ fire_stamp w ++ ")"))
           (fire_ctime w) (fire_send w)
  | None => log WARNING "No frame available for daily photo"
  end.

(** *** [main] (lines 231-243) *)

(** The two [except] clauses of [main]. *)
Definition main_except (e : exn) : events :=
  match class_of e with
  | ValueError => log ERROR ("Configuration error: " ++ str e)
  | _ => log ERROR ("Failed to start motion detector: " ++ str e)
  end.

(** [main] up to [asyncio.gather]: the detector, or [None] when [main]
    returns at once. *)
Definition main_start (isOpened : bool) : events * option MotionDetector :=
  match MotionDetector_init isOpened with
  | Ok (d, ev) => (ev, Some d)
  | Raise e => (main_except e, None)
  end.

(** *** The two tasks of [asyncio.gather] (lines 236-239 and 245-246)

    [run] and [daily_photo_scheduler] share the detector and take turns at
    their [await]s.  A tick is one turn: a pass of the capture loop, the
    scheduler going from the top of its loop into its sleep, the scheduler
    waking up, or a [SIGINT], which [asyncio.run] turns into the
    cancellation of [main] and of both tasks.

    The handles [self.bot] and [self.cap] are not fields of
    [MotionDetector]: what is done through them shows in the trace. *)

Inductive capture_task := CaptureNew | CaptureLoop | CaptureDone.

Inductive scheduler_task :=
| SchedulerNew
| SchedulerTop
| SchedulerSleeping (scheduled : datetime).

Record System := {
  detector : MotionDetector;
  capture : capture_task;
  scheduler : scheduler_task;
  exited : option Z;          (* the exit status, once the process has ended *)
  trace : events
}.

(** The process has ended. *)
Definition halted (s : System) : bool :=
  match exited s with Some _ => true | None => false end.

Inductive tick :=
| Capture (w : cycle_env ndarray)
| Plan (now : datetime)
| Fire (w : fire_env)
| Interrupt.

Definition boot (d : MotionDetector) (ev : events) : System :=
  {| detector := d; capture := CaptureNew; scheduler := SchedulerNew;
     exited := None; trace := ev |}.

Definition capture_tick (s : System) (w : cycle_env ndarray) : System :=
  match capture s with
  | CaptureDone => s
  | st =>
      let '(d, ev, flow) := run_cycle (detector s) w in
      {| detector := d;
         capture := match flow with Continue => CaptureLoop | Left => CaptureDone end;
         scheduler := scheduler s;
         exited := None;
         trace := trace s
                  +++ match st with
                      | CaptureNew => log INFO "Starting motion detector..."
                      | _ => []
                      end
                  +++ ev |}
  end.

(** A task that is cancelled meets [CancelledError] at its [await].  In
    [run] neither [except] clause catches it, so only the [finally] clause
    runs; a task that has not taken its first step never runs at all.  The
    scheduler has no handler. *)
Definition cancel_capture (c : capture_task) : capture_task * events :=
  match c with
  | CaptureLoop => (CaptureDone, run_finally)
  | _ => (c, [])
  end.

(** The process ends with [status] after the events [ev]: [asyncio.run]
    cancels what is left of the tasks. *)
Definition shutdown (s : System) (status : Z) (ev : events) : System :=
  let (c, cleanup) := cancel_capture (capture s) in
  {| detector := detector s; capture := c; scheduler := scheduler s;
     exited := Some status; trace := trace s +++ ev +++ cleanup |}.

Definition plan_tick (s : System) (now : datetime) : System :=
  match scheduler s with
  | SchedulerSleeping _ => s
  | st =>
      let started :=
        match st with
        | SchedulerNew => log INFO "Daily photo scheduler started"
        | _ => []
        end in
      match scheduler_plan now with
      | Ok (scheduled, ev) =>
          {| detector := detector s; capture := capture s;
             scheduler := SchedulerSleeping scheduled; exited := None;
             trace := trace s +++ started +++ ev |}
      | Raise e =>
          (* the exception leaves [gather], [main] catches it, logs it and
             returns *)
          shutdown s STATUS_DONE (started +++ main_except e)
      end
  end.

Definition fire_tick (s : System) (w : fire_env) : System :=
  match scheduler s with
  | SchedulerSleeping _ =>
      {| detector := detector s; capture := capture s;
         scheduler := SchedulerTop; exited := None;
         trace := trace s +++ scheduler_fire (detector s) w |}
  | _ => s
  end.

(** [SIGINT]: both tasks are cancelled, [main] does not catch the
    [CancelledError], and [asyncio.run] raises [KeyboardInterrupt] at line
    246, where nobody catches it. *)
Definition interrupt_tick (s : System) : System := shutdown s STATUS_INTERRUPT [].

Definition step (s : System) (t : tick) : System :=
  if halted s then s
  else match t with
       | Capture w => capture_tick s w
       | Plan now => plan_tick s now
       | Fire w => fire_tick s w
       | Interrupt => interrupt_tick s
       end.

Definition exec (s : System) (ticks : list tick) : System := fold_left step ticks s.

(** *** Reading a run *)

(** The capture loop takes the next [Capture] tick. *)
Definition capturing (s : System) : bool :=
  negb (halted s) &&
  match capture s with CaptureDone => false | _ => true end.

(** The frames the camera delivered during [ticks], oldest first. *)
Fixpoint frames_read (s : System) (ticks : list tick) : list ndarray :=
  match ticks with
  | [] => []
  | t :: rest =>
      app
        match t with
        | Capture w =>
            match read w with
            | FrameRead frame => if capturing s then [frame] else []
            | _ => []
            end
        | _ => []
        end
        (frames_read (step s t) rest)
  end.

End Program.

Arguments last_sent {ndarray MOG2} _.
Arguments frame_count {ndarray MOG2} _.
Arguments latest_frame {ndarray MOG2} _.
Arguments back_sub {ndarray MOG2} _.
Arguments detector {ndarray MOG2} _.
Arguments capture {ndarray MOG2} _.
Arguments scheduler {ndarray MOG2} _.
Arguments exited {ndarray MOG2} _.
Arguments halted {ndarray MOG2} _.
Arguments trace {ndarray MOG2} _.
Arguments Capture {ndarray} w.
Arguments Plan {ndarray} now.
Arguments Fire {ndarray} w.
Arguments Interrupt {ndarray}.

(** ** The process (lines 12-21 and 245-246) *)

(** [os.getenv] of the two variables. *)
Record Environ := {
  TELEGRAM_BOT_TOKEN : option string;
  TELEGRAM_CHAT_ID : option string
}.

(** [not v] for the value of [os.getenv] *)
Definition falsy (v : option string) : bool :=
  match v with
  | Some (String _ _) => false
  | _ => true
  end.

Definition text (v : option string) : string :=
  match v with Some s => s | None => "" end.

(** Lines 16-21: the two constants, or the [ValueError]. *)
Definition load_config (env : Environ) : result (string * string) :=
  if falsy (TELEGRAM_BOT_TOKEN env) || falsy (TELEGRAM_CHAT_ID env)
  then Raise (Exn ValueError
         "Please set TELEGRAM_BOT_TOKEN and TELEGRAM_CHAT_ID environment variables")
  else Ok (text (TELEGRAM_BOT_TOKEN env), text (TELEGRAM_CHAT_ID env)).

Inductive process (ndarray MOG2 : Type) :=
| Exited (status : Z) (log : list (event ndarray))
| Serving (s : @System ndarray MOG2).
Arguments Exited {ndarray MOG2} status log.
Arguments Serving {ndarray MOG2} s.

(** The script from its first line to [asyncio.gather]. *)
Definition script {ndarray contour MOG2} (cv2 : cv2_module ndarray contour MOG2)
    (env : Environ) (isOpened : bool) : process ndarray MOG2 :=
  match load_config env with
  | Raise _ => Exited STATUS_UNCAUGHT []
  | Ok (token, chat) =>
      match main_start cv2 token chat isOpened with
      | (ev, Some d) => Serving (boot d ev)
      | (ev, None) => Exited STATUS_DONE ev
      end
  end.

(** ** Reading a trace *)

Section Observers.
Context {ndarray : Type}.

(** [send_photo] was entered: it starts by writing the frame to disk. *)
Definition is_attempt (e : event ndarray) : bool :=
  match e with Imwrite _ => true | _ => false end.

(** The notification sink was called. *)
Definition is_sink_call (e : event ndarray) : bool :=
  match e with BotSendPhoto _ _ => true | _ => false end.

Definition is_warning (e : event ndarray) : bool :=
  match e with Logged Logging.WARNING _ => true | _ => false end.

Definition attempted (ev : list (event ndarray)) : bool := existsb is_attempt ev.

(** The lines the console handler writes for a trace; [asctime] stamps the
    records, which all come from the logger of [__main__]. *)
Fixpoint console (format : Logging.LogRecord -> string) (asctime : string)
    (ev : list (event ndarray)) : list string :=
  match ev with
  | [] => []
  | Logged l msg :: rest =>
      format {| Logging.asctime := asctime; Logging.name := "__main__";
                Logging.lvl := l; Logging.message := msg |}
      :: console format asctime rest
  | _ :: rest => console format asctime rest
  end.

End Observers.

(** Whether each cycle of the capture loop entered [send_photo]. *)
Fixpoint decisions {ndarray contour MOG2} (cv2 : cv2_module ndarray contour MOG2)
    (token chat : string) (d : MotionDetector) (ws : list (cycle_env ndarray))
    : list bool :=
  match ws with
  | [] => []
  | w :: rest =>
      let '(d', ev, flow) := run_cycle cv2 token chat d w in
      attempted ev ::
      match flow with
      | Continue => decisions cv2 token chat d' rest
      | Left => []
      end
  end.

(** The same cycle with another fate for the delivery. *)
Definition with_send {ndarray} (o : send_env) (w : cycle_env ndarray) : cycle_env ndarray :=
  {| read := read w; time_time := time_time w; time_ctime := time_ctime w; send := o |}.

(** ** A test bench

    A stand-in for [cv2] on which the model runs: a frame is the list of the
    areas of its regions, or [None] for a frame the analysis chokes on. *)

Module Bench.

Definition frame : Type := option (list Q).

Definition cv2 : cv2_module frame Q unit := {|
  createBackgroundSubtractorMOG2 := tt;
  cvtColor := fun f =>
    match f with
    | Some _ => Ok f
    | None => Raise (Exn OtherException "empty frame")
    end;
  GaussianBlur := Ok;
  MOG2_apply := fun bs gray => (bs, Ok gray);
  morphologyEx := fun m _ => Ok m;
  findContours := fun m => Ok (match m with Some areas => areas | None => [] end);
  contourArea := Ok
|}.

Definition TOKEN : string := "123456:ABC-DEF1234ghIkl".
Definition CHAT : string := "987654321".

Definition strftime (d : DateTime.datetime) : string := "day".
Definition format_1f (q : Q) : string := "0.0".

(** A detector as [__init__] leaves it. *)
Definition fresh : @MotionDetector frame unit :=
  {| last_sent := 0; frame_count := 0; latest_frame := None; back_sub := tt |}.

(** What [__init__] logs on the bench, with the camera open. *)
Definition startup_log : list (event frame) :=
  [VideoCapture;
   Logged Logging.INFO "Motion detector initialized successfully";
   Logged Logging.INFO "Camera status: True";
   Logged Logging.INFO "Min contour area: 5000";
   Logged Logging.INFO "Send interval: 3 seconds";
   Logged Logging.INFO "Daily photo time: 14:00";
   Logged Logging.INFO "Bot initialized: True"].

(** The scheduler asleep since nine in the morning, no frame captured yet. *)
Definition asleep : @System frame unit :=
  step cv2 TOKEN CHAT strftime format_1f (boot fresh startup_log)
    (Plan (DateTime.combine 739007 (DateTime.dt_time 9 0))).

Definition wake : fire_env :=
  {| fire_stamp := "2024-05-01 14:00"; fire_ctime := "Wed May  1 14:00:00 2024";
     fire_send := BotReturned |}.

(** A cycle that reads a frame with one large region at time [t]. *)
Definition busy (t : Q) (w : send_env) : cycle_env frame :=
  {| read := FrameRead (Some [6000]); time_time := t;
     time_ctime := "Thu Jan  1 00:00:00 1970"; send := w |}.

End Bench.

(** ** Counting in a trace and in a run *)

Section Counting.
Context {ndarray : Type}.

Definition is_release (e : event ndarray) : bool :=
  match e with CapRelease => true | _ => false end.

Definition is_record (e : event ndarray) : bool :=
  match e with Logged _ _ => true | _ => false end.

Definition is_remove (e : event ndarray) : bool :=
  match e with RemoveFile => true | _ => false end.

(** How many events of a trace satisfy [p]. *)
Definition count (p : event ndarray -> bool) (ev : list (event ndarray)) : nat :=
  List.length (filter p ev).

End Counting.

(** The camera has been released once if the capture loop was left, and not
    at all otherwise. *)
Definition released_iff_left {ndarray MOG2} (s : @System ndarray MOG2) : Prop :=
  count is_release (trace s)
  = match capture s with CaptureDone => 1%nat | _ => 0%nat end.

(** The times of the cycles of a capture run that entered [send_photo],
    oldest first. *)
Fixpoint attempt_times {ndarray contour MOG2} (cv2 : cv2_module ndarray contour MOG2)
    (token chat : string) (d : MotionDetector) (ws : list (cycle_env ndarray))
    : list Q :=
  match ws with
  | [] => []
  | w :: rest =>
      let '(d', ev, flow) := run_cycle cv2 token chat d w in
      app (if attempted ev then [time_time w] else [])
          match flow with
          | Continue => attempt_times cv2 token chat d' rest
          | Left => []
          end
  end.

(** Each time of [ts] is more than [SEND_INTERVAL] after the one before it,
    the first one after [last]. *)
Fixpoint spaced (last : Q) (ts : list Q) : Prop :=
  match ts with
  | [] => True
  | t :: rest => (SEND_INTERVAL < t - last)%Q /\ spaced t rest
  end.

(** A second stand-in for [cv2], as [Bench.cv2] except that [contourArea]
    raises on a region given with a negative area. *)
Module Picky.

Definition cv2 : cv2_module Bench.frame Q unit := {|
  createBackgroundSubtractorMOG2 := tt;
  cvtColor := cvtColor Bench.cv2;
  GaussianBlur := GaussianBlur Bench.cv2;
  MOG2_apply := MOG2_apply Bench.cv2;
  morphologyEx := morphologyEx Bench.cv2;
  findContours := findContours Bench.cv2;
  contourArea := fun a =>
    if Qle_bool 0 a then Ok a else Raise (Exn OtherException "bad contour")
|}.

End Picky.

(** * Properties *)

(** ** Facts about strings *)

Module PyStrFacts.
Import PyStr.

Lemma startswith_nil s : startswith s "" = true.
Proof. destruct s; reflexivity. Qed.

Lemma contains_nil s : contains s "" = true.
Proof. destruct s; reflexivity. Qed.

Lemma contains_tail c s x : contains s x = true -> contains (String c s) x = true.
Proof. intros H. simpl. rewrite H. apply orb_true_r. Qed.

Lemma contains_drop n : forall s x, contains (drop n s) x = true -> contains s x = true.
Proof.
  induction n as [|n IH]; intros s x H.
  - exact H.
  - destruct s as [|c s]; [exact H|].
    apply contains_tail, IH, H.
Qed.

Lemma length_drop n : forall s, (String.length (drop n s) <= String.length s - n)%nat.
Proof.
  induction n as [|n IH]; intros [|c s]; simpl; try lia.
  apply IH.
Qed.

(** A star-free, non-empty word cannot start inside the mask. *)
Lemma startswith_star s w c :
  star_free (String c w) = true ->
  startswith (String "*"%char s) (String c w) = false.
Proof.
  simpl. intros H. apply andb_true_iff in H as [H _].
  apply negb_true_iff in H. rewrite H. reflexivity.
Qed.

Lemma contains_star_cons s w c :
  star_free (String c w) = true ->
  contains (String "*"%char s) (String c w) = contains s (String c w).
Proof.
  intros H.
  change (contains (String "*"%char s) (String c w))
    with (startswith (String "*"%char s) (String c w) || contains s (String c w)).
  rewrite (startswith_star s w c H). reflexivity.
Qed.

Lemma contains_mask s w c :
  star_free (String c w) = true ->
  contains (MASK ++ s) (String c w) = contains s (String c w).
Proof.
  intros H. unfold MASK.
  change ("***" ++ s) with (String "*"%char (String "*"%char (String "*"%char s))).
  rewrite !(contains_star_cons _ _ _ H). reflexivity.
Qed.

(** A star-free word at the start of the masked text was already at the
    start of the text. *)
Lemma startswith_replace_scan old w : forall fuel s,
  star_free w = true ->
  startswith (replace_scan fuel s old MASK) w = true ->
  startswith s w = true.
Proof.
  intros fuel s. revert fuel. revert w.
  induction s as [|c s IH]; intros w fuel Hw H.
  - destruct fuel; exact H.
  - destruct fuel as [|fuel]; [exact H|].
    destruct w as [|a w]; [reflexivity|].
    cbn [replace_scan] in H.
    destruct (startswith (String c s) old).
    + unfold MASK in H. cbn [append] in H.
      rewrite (startswith_star _ _ _ Hw) in H. discriminate.
    + cbn [startswith] in H |- *.
      apply andb_true_iff in H as [Hc H].
      rewrite Hc. cbn [andb].
      simpl in Hw. apply andb_true_iff in Hw as [_ Hw].
      exact (IH w fuel Hw H).
Qed.

(** Masking never creates an occurrence of a star-free word. *)
Lemma contains_replace_scan old w : forall fuel s,
  star_free w = true ->
  contains (replace_scan fuel s old MASK) w = true ->
  contains s w = true.
Proof.
  induction fuel as [|fuel IH]; intros s Hw H; [exact H|].
  destruct w as [|a w]; [apply contains_nil|].
  destruct s as [|c s]; [exact H|].
  cbn [replace_scan] in H.
  destruct (startswith (String c s) old) eqn:E.
  - rewrite (contains_mask _ _ _ Hw) in H.
    apply (contains_drop (String.length old)), IH; assumption.
  - change (contains (String c (replace_scan fuel s old MASK)) (String a w))
      with (startswith (String c (replace_scan fuel s old MASK)) (String a w)
            || contains (replace_scan fuel s old MASK) (String a w)) in H.
    apply orb_true_iff in H as [H|H].
    + assert (S0 : startswith (String c s) (String a w) = true).
      { apply (startswith_replace_scan old (String a w) (S fuel)); [exact Hw|].
        cbn [replace_scan]. rewrite E. exact H. }
      cbn [contains]. rewrite S0. reflexivity.
    + apply contains_tail, IH; assumption.
Qed.

Lemma contains_mask_ne s w :
  w <> "" -> star_free w = true -> contains (MASK ++ s) w = contains s w.
Proof. destruct w; [congruence|]. intros _. apply contains_mask. Qed.

(** After masking, a star-free, non-empty secret is gone. *)
Lemma replace_scan_masks old : forall fuel s,
  old <> "" -> star_free old = true -> (String.length s <= fuel)%nat ->
  contains (replace_scan fuel s old MASK) old = false.
Proof.
  induction fuel as [|fuel IH]; intros s Hne Hsf Hlen.
  - destruct s; [|simpl in Hlen; lia].
    destruct old; [congruence|reflexivity].
  - destruct s as [|c s].
    + destruct old; [congruence|reflexivity].
    + cbn [replace_scan].
      destruct (startswith (String c s) old) eqn:E.
      * rewrite contains_mask_ne by assumption.
        apply IH; try assumption.
        pose proof (length_drop (String.length old) (String c s)) as L.
        assert (0 < String.length old)%nat by (destruct old; [congruence|simpl; lia]).
        cbn [String.length] in Hlen, L. lia.
      * change (contains (String c (replace_scan fuel s old MASK)) old)
          with (startswith (String c (replace_scan fuel s old MASK)) old
                || contains (replace_scan fuel s old MASK) old).
        rewrite IH by (try assumption; simpl in Hlen; lia).
        rewrite orb_false_r.
        destruct (startswith (String c (replace_scan fuel s old MASK)) old) eqn:F;
          [|reflexivity].
        rewrite <- E. symmetry.
        apply (startswith_replace_scan old old (S fuel)); [exact Hsf|].
        cbn [replace_scan]. rewrite E. exact F.
Qed.

Lemma replace_masks s old :
  old <> "" -> star_free old = true -> contains (replace s old MASK) old = false.
Proof.
  intros Hne Hsf. unfold replace. destruct old; [congruence|].
  apply replace_scan_masks; auto.
Qed.

Lemma replace_keeps_absent s old w :
  old <> "" -> star_free w = true -> contains s w = false ->
  contains (replace s old MASK) w = false.
Proof.
  intros Hne Hw Hs.
  destruct (contains (replace s old MASK) w) eqn:E; [|reflexivity].
  rewrite <- Hs. symmetry.
  unfold replace in E. destruct old; [congruence|].
  eapply contains_replace_scan; eassumption.
Qed.

End PyStrFacts.

(** ** Facts about comparisons *)

Lemma Qgtb_lt a b : Qgtb a b = true <-> (b < a)%Q.
Proof.
  unfold Qgtb. rewrite negb_true_iff. split; intros H.
  - apply Qnot_le_lt. intros L. apply Qle_bool_iff in L. congruence.
  - destruct (Qle_bool a b) eqn:E; [|reflexivity].
    apply Qle_bool_iff in E. exfalso. exact (Qlt_not_le _ _ H E).
Qed.


Lemma geb_spec a b : DateTime.geb a b = true <-> ~ DateTime.lt a b.
Proof.
  unfold DateTime.geb, DateTime.lt. rewrite orb_true_iff, andb_true_iff.
  rewrite Z.ltb_lt, Z.eqb_eq, Z.leb_le. lia.
Qed.


(** ** Masking of credentials in the log *)

Section Masking.
Import PyStr PyStrFacts Logging.

Lemma mask_secrets_keeps_absent w : forall secrets s,
  star_free w = true -> contains s w = false ->
  contains (mask_secrets secrets s) w = false.
Proof.
  induction secrets as [|x secrets IH]; intros s Hw Hs; [exact Hs|].
  cbn [mask_secrets]. apply IH; [exact Hw|].
  destruct (negb (x =? "") && (4 <? len x)%nat) eqn:G; [|exact Hs].
  apply replace_keeps_absent; try assumption.
  apply andb_true_iff in G as [G _]. apply negb_true_iff in G.
  intros ->. discriminate.
Qed.

Lemma mask_secrets_masks x : forall secrets s,
  In x secrets -> (4 < len x)%nat -> star_free x = true ->
  contains (mask_secrets secrets s) x = false.
Proof.
  induction secrets as [|y secrets IH]; intros s Hin Hlen Hsf; [destruct Hin|].
  destruct Hin as [->|Hin]; [|apply IH; assumption].
  cbn [mask_secrets]. apply mask_secrets_keeps_absent; [exact Hsf|].
  assert (Hne : x <> "") by (intros ->; simpl in Hlen; lia).
  assert (G : negb (x =? "") && (4 <? len x)%nat = true).
  { apply andb_true_iff. split.
    - apply negb_true_iff. apply String.eqb_neq. exact Hne.
    - apply Nat.ltb_lt. exact Hlen. }
  rewrite G. apply replace_masks; assumption.
Qed.

Lemma console_lines {ndarray} format asctime (ev : list (event ndarray)) line :
  In line (console format asctime ev) ->
  exists r, line = format r.
Proof.
  induction ev as [|e ev IH]; intros H; [destruct H|].
  destruct e; cbn [console] in H; try (apply IH; exact H).
  destruct H as [<-|H]; [eexists; reflexivity|apply IH; exact H].
Qed.

End Masking.

(** C9, as the code has it.  A credential of more than four characters, none
    of them an asterisk, occurs in no line the handler writes: neither in a
    formatted record, whatever its fields, nor in the console output of any
    trace of events. *)
Theorem C9_long_secrets_never_logged (token chat x : string) :
  x = token \/ x = chat ->
  (4 < PyStr.len x)%nat ->
  PyStr.star_free x = true ->
  (forall r, PyStr.contains (Logging.setup_logging token chat r) x = false) /\
  (forall (ndarray : Type) asctime (ev : list (event ndarray)) line,
      In line (console (Logging.setup_logging token chat) asctime ev) ->
      PyStr.contains line x = false).
Proof.
  intros Hx Hlen Hsf.
  assert (R : forall r, PyStr.contains (Logging.setup_logging token chat r) x = false).
  { intros r. unfold Logging.setup_logging, Logging.SecureFormatter_format.
    apply mask_secrets_masks; try assumption.
    destruct Hx as [->| ->]; simpl; auto. }
  split; [exact R|].
  intros ndarray asctime ev line Hin.
  destruct (console_lines _ _ _ _ Hin) as [r ->]. apply R.
Qed.

Lemma C9_long_secrets_never_logged_witness :
  PyStr.contains
    (Logging.setup_logging Bench.TOKEN Bench.CHAT
       {| Logging.asctime := "2024-05-01 14:00:00,000";
          Logging.name := "__main__";
          Logging.lvl := Logging.ERROR;
          Logging.message :=
            "Unexpected error sending photo: https://api.telegram.org/bot123456:ABC-DEF1234ghIkl/sendPhoto" |})
    Bench.TOKEN = false.
Proof.
  apply (C9_long_secrets_never_logged Bench.TOKEN Bench.CHAT Bench.TOKEN).
  - left. reflexivity.
  - vm_compute. lia.
  - reflexivity.
Defined.

(** C9 as stated fails: a recipient identity of four characters that shows
    up in the message of a failed delivery reaches the console unmasked. *)
Lemma C9_short_secret_is_logged :
  existsb (fun line => PyStr.contains line "4242")
    (console (Logging.setup_logging Bench.TOKEN "4242") "2024-05-01 14:00:00,000"
       (send_photo Bench.TOKEN "4242" (Some [6000]) None "Wed May  1 14:00:00 2024"
          (BotRaised (Exn OtherException "no route to chat 4242"))))
  = true.
Proof. vm_compute. reflexivity. Qed.

(** The guard counts characters, as [len] does: a chat id of three
    two-byte characters (here U+00E9 three times, six bytes) has length 3
    and is logged as it is. *)
Example three_characters_are_not_masked :
  let chat := String "195" (String "169" (String "195" (String "169"
                (String "195" (String "169" ""))))) in
  PyStr.len chat = 3%nat /\ String.length chat = 6%nat /\
  PyStr.contains
    (Logging.setup_logging Bench.TOKEN chat
       {| Logging.asctime := "2024-05-01 14:00:00,000"; Logging.name := "__main__";
          Logging.lvl := Logging.ERROR;
          Logging.message := "Unexpected error sending photo: " ++ chat |})
    chat = true.
Proof. repeat split. Qed.

(** The asterisk matters too: the mask itself can rebuild a secret. *)
Example mask_can_rebuild_a_secret :
  PyStr.contains (PyStr.replace "qq***rr" "q***r" PyStr.MASK) "q***r" = true.
Proof. reflexivity. Qed.

(** ** The capture cycle *)

Section Cycle.
Context {ndarray contour MOG2 : Type}.
Variable cv2 : cv2_module ndarray contour MOG2.
Variables TELEGRAM_TOKEN CHAT_ID : string.

Local Abbreviation cycle := (run_cycle cv2 TELEGRAM_TOKEN CHAT_ID).
Local Abbreviation motion d frame := (snd (fst (process_frame cv2 d frame))).

Lemma attempted_app (a b : list (event ndarray)) :
  attempted (a ++ b)%list = attempted a || attempted b.
Proof. apply existsb_app. Qed.

Lemma attempted_log l msg : attempted (@log ndarray l msg) = false.
Proof. unfold log. destruct (Logging.enabled l); reflexivity. Qed.

Lemma attempted_send_photo (frame : ndarray) caption ctime o :
  attempted (send_photo TELEGRAM_TOKEN CHAT_ID frame caption ctime o) = true.
Proof. reflexivity. Qed.

(** [process_frame] touches the background model only, and never enters
    [send_photo]. *)
Lemma process_frame_spec (d : @MotionDetector ndarray MOG2) frame :
  let '(d', _, ev) := process_frame cv2 d frame in
  last_sent d' = last_sent d /\ latest_frame d' = latest_frame d /\
  frame_count d' = frame_count d /\ attempted ev = false.
Proof.
  unfold process_frame. destruct (detect cv2 (back_sub d) frame) as [bs' [b|e]].
  - repeat split.
  - repeat split.
Qed.

Lemma process_frame_set_latest (d : @MotionDetector ndarray MOG2) f frame :
  motion (set_latest_frame f d) frame = motion d frame.
Proof.
  unfold process_frame. cbn [set_latest_frame back_sub].
  destruct (detect cv2 (back_sub d) frame) as [bs' [b|e]]; reflexivity.
Qed.

(** The verdict of a cycle: it enters [send_photo] exactly when a frame was
    read, motion was found in it and the cooldown is over. *)
Lemma run_cycle_attempted d w :
  attempted (snd (fst (cycle d w))) =
  match read w with
  | FrameRead frame => motion d frame && cooldown_over (time_time w) (last_sent d)
  | _ => false
  end.
Proof.
  unfold run_cycle, run_finally.
  destruct (read w) as [frame| |e|]; cbn [fst snd];
    try (rewrite attempted_app, attempted_log; reflexivity).
  pose proof (process_frame_spec (set_latest_frame (Some (copy frame)) d) frame) as P.
  rewrite <- (process_frame_set_latest d (Some (copy frame)) frame).
  destruct (process_frame cv2 (set_latest_frame (Some (copy frame)) d) frame)
    as [[d' m] ev].
  destruct P as (Ls & _ & _ & Ha). cbn [fst snd]. rewrite Ls. cbn [set_latest_frame last_sent].
  destruct (m && cooldown_over (time_time w) (last_sent d)); cbn [fst snd].
  - rewrite !attempted_app, attempted_send_photo, Ha. reflexivity.
  - rewrite attempted_app, Ha. reflexivity.
Qed.

(** What a cycle does to [last_sent]. *)
Lemma run_cycle_last_sent d w :
  last_sent (fst (fst (cycle d w))) =
  if attempted (snd (fst (cycle d w))) then time_time w else last_sent d.
Proof.
  rewrite run_cycle_attempted.
  unfold run_cycle.
  destruct (read w) as [frame| |e|]; cbn [fst snd]; try reflexivity.
  pose proof (process_frame_spec (set_latest_frame (Some (copy frame)) d) frame) as P.
  rewrite <- (process_frame_set_latest d (Some (copy frame)) frame).
  destruct (process_frame cv2 (set_latest_frame (Some (copy frame)) d) frame)
    as [[d' m] ev].
  destruct P as (Ls & _ & _ & _). cbn [fst snd]. rewrite Ls. cbn [set_latest_frame last_sent].
  destruct (m && cooldown_over (time_time w) (last_sent d)); cbn [fst snd].
  - reflexivity.
  - exact Ls.
Qed.

(** What a cycle does to [latest_frame] and to the loop. *)
Lemma run_cycle_latest_frame d w :
  match read w with
  | FrameRead frame =>
      latest_frame (fst (fst (cycle d w))) = Some frame /\ snd (cycle d w) = Continue
  | _ =>
      latest_frame (fst (fst (cycle d w))) = latest_frame d /\ snd (cycle d w) = Left
  end.
Proof.
  unfold run_cycle.
  destruct (read w) as [frame| |e|]; cbn [fst snd]; try (split; reflexivity).
  pose proof (process_frame_spec (set_latest_frame (Some (copy frame)) d) frame) as P.
  destruct (process_frame cv2 (set_latest_frame (Some (copy frame)) d) frame)
    as [[d' m] ev].
  destruct P as (_ & Lf & _ & _).
  destruct (m && cooldown_over (time_time w) (last_sent d')); cbn [fst snd];
    (split; [exact Lf|reflexivity]).
Qed.

Lemma cooldown_over_spec now last :
  cooldown_over now last = true <-> (SEND_INTERVAL < now - last)%Q.
Proof. unfold cooldown_over. apply Qgtb_lt. Qed.

End Cycle.

(** ** The turns that are not the capture loop's *)

Section Turns.
Context {ndarray MOG2 : Type}.
Variable strftime : DateTime.datetime -> string.
Variable format_1f : Q -> string.
Variables TELEGRAM_TOKEN CHAT_ID : string.

Lemma shutdown_detector (s : @System ndarray MOG2) status ev :
  detector (shutdown s status ev) = detector s.
Proof. unfold shutdown. destruct (@cancel_capture ndarray (capture s)). reflexivity. Qed.

Lemma shutdown_exited (s : @System ndarray MOG2) status ev :
  exited (shutdown s status ev) = Some status.
Proof. unfold shutdown. destruct (@cancel_capture ndarray (capture s)). reflexivity. Qed.

Lemma shutdown_trace (s : @System ndarray MOG2) status ev :
  trace (shutdown s status ev)
  = (trace s ++ ev ++ snd (@cancel_capture ndarray (capture s)))%list.
Proof. unfold shutdown. destruct (@cancel_capture ndarray (capture s)). reflexivity. Qed.

Lemma shutdown_capture (s : @System ndarray MOG2) status ev :
  capture (shutdown s status ev) = fst (@cancel_capture ndarray (capture s)).
Proof. unfold shutdown. destruct (@cancel_capture ndarray (capture s)). reflexivity. Qed.

(** The scheduler and the interrupt leave the detector alone. *)
Lemma plan_tick_detector (s : @System ndarray MOG2) now :
  detector (plan_tick strftime format_1f s now) = detector s.
Proof.
  unfold plan_tick.
  destruct (scheduler s); try reflexivity;
    destruct (scheduler_plan strftime format_1f now) as [[f ev]|e];
    try reflexivity; apply shutdown_detector.
Qed.

Lemma fire_tick_detector (s : @System ndarray MOG2) w :
  detector (fire_tick TELEGRAM_TOKEN CHAT_ID s w) = detector s.
Proof. unfold fire_tick. destruct (scheduler s); reflexivity. Qed.

Lemma interrupt_tick_detector (s : @System ndarray MOG2) :
  detector (interrupt_tick s) = detector s.
Proof. apply shutdown_detector. Qed.

End Turns.

(** ** The rate limiter (lines 81 and 213-218) *)

(** C1, as the code has it.  The capture loop enters [send_photo] exactly
    when a frame was read, motion was found and
    [now - last_sent > SEND_INTERVAL]; nothing stands for "never":
    [__init__] sets [last_sent] to 0, so before the first send the test is
    [now > 3].  With motion in every frame, the cycles at times 0, 1, 2, 4
    decide no, no, no, yes, and those at 10, 11, 12, 14 decide yes, no, no,
    yes. *)
Theorem C1_cooldown_counts_from_zero :
  (forall now last,
      cooldown_over now last = true <-> (SEND_INTERVAL < now - last)%Q) /\
  (forall now, cooldown_over now 0 = true <-> (3 < now)%Q) /\
  (forall (ndarray contour MOG2 : Type) (cv2 : cv2_module ndarray contour MOG2)
          token chat d w,
      attempted (snd (fst (run_cycle cv2 token chat d w))) =
      match read w with
      | FrameRead frame =>
          snd (fst (process_frame cv2 d frame))
          && cooldown_over (time_time w) (last_sent d)
      | _ => false
      end) /\
  (forall (ndarray contour MOG2 : Type) (cv2 : cv2_module ndarray contour MOG2)
          token chat isOpened,
      match MotionDetector_init cv2 token chat isOpened with
      | Ok (d, _) => last_sent d = 0
      | Raise _ => True
      end) /\
  match MotionDetector_init Bench.cv2 Bench.TOKEN Bench.CHAT true with
  | Ok (d, _) => d = Bench.fresh
  | Raise _ => False
  end /\
  (forall o,
      decisions Bench.cv2 Bench.TOKEN Bench.CHAT Bench.fresh
        (map (fun t => Bench.busy t o) [0; 1; 2; 4])
      = [false; false; false; true]) /\
  (forall o,
      decisions Bench.cv2 Bench.TOKEN Bench.CHAT Bench.fresh
        (map (fun t => Bench.busy t o) [10; 11; 12; 14])
      = [true; false; false; true]).
Proof.
  split; [apply cooldown_over_spec|].
  split.
  { intros now. rewrite cooldown_over_spec. unfold SEND_INTERVAL.
    split; intros H; lra. }
  split; [intros; apply run_cycle_attempted|].
  split.
  { intros. unfold MotionDetector_init.
    destruct ((token =? "") || negb (PyStr.contains token ":")); [exact I|reflexivity]. }
  split; [reflexivity|].
  split; intros [e|e|]; reflexivity.
Qed.

(** C1 as stated fails on its own example: at time 0 nothing has been sent,
    yet the loop does not send. *)
Lemma C1_no_send_at_time_zero :
  decisions Bench.cv2 Bench.TOKEN Bench.CHAT Bench.fresh
    (map (fun t => Bench.busy t BotReturned) [0; 1; 2; 4])
  = [false; false; false; true]
  /\ decisions Bench.cv2 Bench.TOKEN Bench.CHAT Bench.fresh
       (map (fun t => Bench.busy t BotReturned) [0; 1; 2; 4])
     <> [true; false; false; true].
Proof. split; [reflexivity|discriminate]. Qed.

Section RateLimiter.
Context {ndarray contour MOG2 : Type}.
Variable cv2 : cv2_module ndarray contour MOG2.
Variables TELEGRAM_TOKEN CHAT_ID : string.
Variable strftime : DateTime.datetime -> string.
Variable format_1f : Q -> string.

Local Abbreviation cycle := (run_cycle cv2 TELEGRAM_TOKEN CHAT_ID).
Local Abbreviation tick_step := (step cv2 TELEGRAM_TOKEN CHAT_ID strftime format_1f).

(** Whether a cycle enters [send_photo] does not depend on how the delivery
    will go. *)
Lemma attempted_with_send d w o :
  attempted (snd (fst (cycle d (with_send o w)))) = attempted (snd (fst (cycle d w))).
Proof. rewrite !run_cycle_attempted. reflexivity. Qed.

(** C5.  Once a cycle enters [send_photo], [last_sent] becomes the time of
    that cycle whatever the delivery does (delivered, refused by Telegram,
    any other failure, or the photo could not even be written), and the
    cooldown runs from there: no cycle within [SEND_INTERVAL] of it enters
    [send_photo]. *)
Theorem C5_failed_send_consumes_cooldown d w :
  attempted (snd (fst (cycle d w))) = true ->
  forall o,
    let d' := fst (fst (cycle d (with_send o w))) in
    attempted (snd (fst (cycle d (with_send o w)))) = true /\
    last_sent d' = time_time w /\
    forall w', (time_time w' - time_time w <= SEND_INTERVAL)%Q ->
               attempted (snd (fst (cycle d' w'))) = false.
Proof.
  intros H o d'.
  assert (A : attempted (snd (fst (cycle d (with_send o w)))) = true)
    by (rewrite attempted_with_send; exact H).
  assert (L : last_sent d' = time_time w).
  { unfold d'. rewrite run_cycle_last_sent, A. reflexivity. }
  repeat split; try assumption.
  intros w' Hw'. rewrite run_cycle_attempted.
  destruct (read w'); try reflexivity.
  rewrite L.
  destruct (cooldown_over (time_time w') (time_time w)) eqn:E.
  - apply cooldown_over_spec in E. exfalso. apply (Qlt_not_le _ _ E). exact Hw'.
  - apply andb_false_r.
Qed.

(** C10.  A tick of the system in which the capture loop does not enter
    [send_photo] leaves [last_sent] as it was: a cycle without motion or
    within the cooldown, a failed read, and every tick of the scheduler. *)
Theorem C10_last_sent_changes_only_on_attempt s t :
  (forall w, t = Capture w ->
             attempted (snd (fst (cycle (detector s) w))) = false) ->
  last_sent (detector (tick_step s t)) = last_sent (detector s).
Proof.
  intros H. unfold step.
  destruct (halted s); [reflexivity|].
  destruct t as [w|now|w|].
  - unfold capture_tick. specialize (H w eq_refl).
    pose proof (run_cycle_last_sent cv2 TELEGRAM_TOKEN CHAT_ID (detector s) w) as L.
    rewrite H in L.
    destruct (capture s); try reflexivity;
      destruct (cycle (detector s) w) as [[d' ev] flow]; exact L.
  - rewrite plan_tick_detector. reflexivity.
  - rewrite fire_tick_detector. reflexivity.
  - rewrite interrupt_tick_detector. reflexivity.
Qed.

End RateLimiter.

Lemma C5_failed_send_consumes_cooldown_witness :
  last_sent
    (fst (fst (run_cycle Bench.cv2 Bench.TOKEN Bench.CHAT Bench.fresh
                 (with_send (BotRaised (Exn TelegramError "Timed out"))
                    (Bench.busy 10 BotReturned)))))
  = 10.
Proof.
  destruct (C5_failed_send_consumes_cooldown Bench.cv2 Bench.TOKEN Bench.CHAT
              Bench.fresh (Bench.busy 10 BotReturned) eq_refl
              (BotRaised (Exn TelegramError "Timed out"))) as (_ & L & _).
  exact L.
Defined.

Lemma C10_last_sent_changes_only_on_attempt_witness :
  last_sent
    (detector (step Bench.cv2 Bench.TOKEN Bench.CHAT Bench.strftime Bench.format_1f
                 (boot Bench.fresh []) (Capture (Bench.busy 1 BotReturned))))
  = 0.
Proof.
  apply (C10_last_sent_changes_only_on_attempt Bench.cv2 Bench.TOKEN Bench.CHAT
           Bench.strftime Bench.format_1f (boot Bench.fresh [])
           (Capture (Bench.busy 1 BotReturned))).
  intros w E. injection E as <-. reflexivity.
Defined.

(** ** The motion pipeline (lines 131-162) *)

Section Pipeline.
Context {ndarray contour MOG2 : Type}.
Variable cv2 : cv2_module ndarray contour MOG2.
Variables TELEGRAM_TOKEN CHAT_ID : string.

Local Abbreviation cycle := (run_cycle cv2 TELEGRAM_TOKEN CHAT_ID).

(** The loop over the contours finds what [existsb] finds, when every area
    can be measured. *)
Lemma any_significant_measured (area : contour -> Q) : forall cs,
  (forall c, In c cs -> contourArea cv2 c = Ok (area c)) ->
  any_significant cv2 cs = Ok (existsb (fun c => Qgtb (area c) MIN_CONTOUR_AREA) cs).
Proof.
  induction cs as [|c cs IH]; intros H; [reflexivity|].
  cbn [any_significant existsb]. rewrite (H c (or_introl eq_refl)). cbn [bind].
  destruct (Qgtb (area c) MIN_CONTOUR_AREA); [reflexivity|].
  apply IH. intros c' Hc'. apply H. right. exact Hc'.
Qed.

(** The loop stops at the first contour it cannot measure. *)
Lemma any_significant_raises e c after : forall before,
  (forall c', In c' before ->
     exists a, contourArea cv2 c' = Ok a /\ (a <= MIN_CONTOUR_AREA)%Q) ->
  contourArea cv2 c = Raise e ->
  any_significant cv2 (before ++ c :: after) = Raise e.
Proof.
  induction before as [|b before IH]; intros Hb Hc.
  - cbn [app any_significant]. rewrite Hc. reflexivity.
  - cbn [app any_significant].
    destruct (Hb b (or_introl eq_refl)) as (a & Ea & La). rewrite Ea. cbn [bind].
    assert (G : Qgtb a MIN_CONTOUR_AREA = false).
    { destruct (Qgtb a MIN_CONTOUR_AREA) eqn:E; [|reflexivity].
      apply Qgtb_lt in E. exfalso. exact (Qlt_not_le _ _ E La). }
    rewrite G. apply IH; [|exact Hc].
    intros c' Hc'. apply Hb. right. exact Hc'.
Qed.

Lemma process_frame_extracted (d : @MotionDetector ndarray MOG2) frame cs :
  snd (extract_contours cv2 (back_sub d) frame) = Ok cs ->
  match any_significant cv2 cs with
  | Ok b => snd (fst (process_frame cv2 d frame)) = b
            /\ snd (process_frame cv2 d frame) = []
  | Raise e => snd (fst (process_frame cv2 d frame)) = false
               /\ snd (process_frame cv2 d frame)
                  = log Logging.ERROR ("Error processing frame: " ++ str e)
  end.
Proof.
  intros H. unfold process_frame, detect.
  destruct (extract_contours cv2 (back_sub d) frame) as [bs' r].
  cbn [snd] in H. subst r. cbn [bind].
  destruct (any_significant cv2 cs); split; reflexivity.
Qed.

Lemma process_frame_raised (d : @MotionDetector ndarray MOG2) frame e :
  snd (detect cv2 (back_sub d) frame) = Raise e ->
  snd (fst (process_frame cv2 d frame)) = false
  /\ snd (process_frame cv2 d frame)
     = log Logging.ERROR ("Error processing frame: " ++ str e).
Proof.
  intros H. unfold process_frame.
  destruct (detect cv2 (back_sub d) frame) as [bs' r].
  cbn [snd] in H. subst r. split; reflexivity.
Qed.

(** Whatever step raises, the body of the [try] raises the same. *)
Lemma step_raises_detect bs frame e :
  step_raises cv2 bs frame e -> snd (detect cv2 bs frame) = Raise e.
Proof.
  intros H. unfold detect.
  destruct H as [H1|g H1 H2|g b H1 H2 H3|g b fg H1 H2 H3 H4
                |g b fg cl H1 H2 H3 H4 H5|g b fg cl op H1 H2 H3 H4 H5 H6
                |before c after H1 H2 H3].
  1-6: unfold extract_contours; rewrite H1; cbn [bind]; try rewrite H2; cbn [bind];
       try reflexivity;
       destruct (MOG2_apply cv2 bs b) as [bs' r]; cbn [snd] in H3; subst r;
       cbn [bind snd]; try rewrite H4; cbn [bind]; try rewrite H5; cbn [bind];
       try rewrite H6; reflexivity.
  destruct (extract_contours cv2 bs frame) as [bs' r].
  cbn [snd] in H1. subst r. cbn [bind snd].
  apply any_significant_raises; assumption.
Qed.

(** C2.  When the pipeline extracts the regions [cs] of a frame and [area]
    is what [contourArea] measures on them, [process_frame] reports motion
    exactly when some region has an area strictly above [MIN_CONTOUR_AREA]
    (5000).  So a frame whose largest region measures 5001 gives true, and
    one whose largest region measures 5000 gives false. *)
Theorem C2_motion_iff_region_above_threshold
    (d : @MotionDetector ndarray MOG2) frame cs (area : contour -> Q) :
  snd (extract_contours cv2 (back_sub d) frame) = Ok cs ->
  (forall c, In c cs -> contourArea cv2 c = Ok (area c)) ->
  (snd (fst (process_frame cv2 d frame)) = true
   <-> exists c, In c cs /\ (MIN_CONTOUR_AREA < area c)%Q) /\
  ((exists c, In c cs /\ (area c == MIN_CONTOUR_AREA + 1)%Q) ->
   snd (fst (process_frame cv2 d frame)) = true) /\
  ((forall c, In c cs -> (area c <= MIN_CONTOUR_AREA)%Q) ->
   snd (fst (process_frame cv2 d frame)) = false) /\
  MIN_CONTOUR_AREA = 5000.
Proof.
  intros Hx Ha.
  pose proof (process_frame_extracted d frame cs Hx) as P.
  rewrite (any_significant_measured area cs Ha) in P. destruct P as [P _].
  assert (I : snd (fst (process_frame cv2 d frame)) = true
              <-> exists c, In c cs /\ (MIN_CONTOUR_AREA < area c)%Q).
  { rewrite P, existsb_exists.
    split; intros (c & Hc & G); exists c; (split; [exact Hc|]); apply Qgtb_lt; exact G. }
  split; [exact I|]. split; [|split; [|reflexivity]].
  - intros (c & Hc & E). apply I. exists c. split; [exact Hc|].
    rewrite E. unfold MIN_CONTOUR_AREA. lra.
  - intros Hle.
    destruct (snd (fst (process_frame cv2 d frame))) eqn:M; [|reflexivity].
    destruct (proj1 I eq_refl) as (c & Hc & G).
    exfalso. exact (Qlt_not_le _ _ G (Hle c Hc)).
Qed.

(** C3.  [process_frame] is a total function to booleans.  When a step of
    the analysis raises, it hands one [ERROR] record to the logger and
    answers [False]; the cycle does not enter [send_photo], the loop goes on
    to the next frame, and the frame is still published as the latest. *)
Theorem C3_analysis_failure_means_no_motion
    (d : @MotionDetector ndarray MOG2) frame e w :
  step_raises cv2 (back_sub d) frame e ->
  read w = FrameRead frame ->
  process_frame cv2 d frame
    = (fst (fst (process_frame cv2 d frame)), false,
       [Logged Logging.ERROR ("Error processing frame: " ++ str e)]) /\
  attempted (snd (fst (cycle d w))) = false /\
  snd (cycle d w) = Continue /\
  latest_frame (fst (fst (cycle d w))) = Some frame /\
  last_sent (fst (fst (cycle d w))) = last_sent d.
Proof.
  intros Hs Hr.
  destruct (process_frame_raised d frame e (step_raises_detect _ _ _ Hs)) as [M L].
  split.
  { destruct (process_frame cv2 d frame) as [[d' m] ev].
    cbn [fst snd] in *. subst m ev. reflexivity. }
  assert (A : attempted (snd (fst (cycle d w))) = false).
  { rewrite run_cycle_attempted, Hr, M. reflexivity. }
  split; [exact A|].
  pose proof (run_cycle_latest_frame cv2 TELEGRAM_TOKEN CHAT_ID d w) as F.
  rewrite Hr in F. destruct F as [F1 F2].
  repeat split; try assumption.
  rewrite run_cycle_last_sent, A. reflexivity.
Qed.

End Pipeline.

Lemma C2_motion_iff_region_above_threshold_witness :
  snd (fst (process_frame Bench.cv2 Bench.fresh (Some [120; 5001; 5000]))) = true
  /\ snd (fst (process_frame Bench.cv2 Bench.fresh (Some [120; 5000]))) = false.
Proof.
  split.
  - apply (C2_motion_iff_region_above_threshold Bench.cv2 Bench.fresh
             (Some [120; 5001; 5000]) [120; 5001; 5000] (fun a => a)).
    + reflexivity.
    + intros c _. reflexivity.
    + exists 5001. split; [simpl; auto|reflexivity].
  - apply (C2_motion_iff_region_above_threshold Bench.cv2 Bench.fresh
             (Some [120; 5000]) [120; 5000] (fun a => a)).
    + reflexivity.
    + intros c _. reflexivity.
    + intros c [<-|[<-|[]]]; unfold MIN_CONTOUR_AREA; lra.
Defined.

Lemma C3_analysis_failure_means_no_motion_witness :
  process_frame Bench.cv2 Bench.fresh None
  = (Bench.fresh, false, [Logged Logging.ERROR "Error processing frame: empty frame"])
  /\ snd (run_cycle Bench.cv2 Bench.TOKEN Bench.CHAT Bench.fresh
            {| read := FrameRead None; time_time := 10;
               time_ctime := "Thu Jan  1 00:00:10 1970"; send := BotReturned |})
     = Continue.
Proof.
  destruct (C3_analysis_failure_means_no_motion Bench.cv2 Bench.TOKEN Bench.CHAT
              Bench.fresh None (Exn OtherException "empty frame")
              {| read := FrameRead None; time_time := 10;
                 time_ctime := "Thu Jan  1 00:00:10 1970"; send := BotReturned |}
              (cvtColor_raises Bench.cv2 tt None _ eq_refl) eq_refl)
    as (P & _ & C & _).
  split; [exact P|exact C].
Defined.

(** ** The daily scheduler (lines 164-196) *)

Section NextFire.
Import DateTime.

Lemma DAILY_PHOTO_TIME_range : (0 <= DAILY_PHOTO_TIME < DAY_MICROS)%Z.
Proof. unfold DAILY_PHOTO_TIME, dt_time, DAY_MICROS. lia. Qed.

(** Before 14:00 the scheduler aims at today, from 14:00 on at tomorrow. *)
Lemma next_fire_cases now :
  lt now LAST_FIRE ->
  next_fire now =
  Ok (combine (if (micro now <? DAILY_PHOTO_TIME)%Z then ordinal now else ordinal now + 1)
        DAILY_PHOTO_TIME).
Proof.
  intros H. unfold next_fire, geb, add_one_day, lt, LAST_FIRE, combine in *.
  cbn [ordinal micro] in *.
  rewrite Z.ltb_irrefl, Z.eqb_refl. cbn [orb andb].
  generalize dependent DAILY_PHOTO_TIME. intros T H.
  unfold MAXORDINAL in *.
  destruct (Z.leb_spec T (micro now)) as [L|L];
    destruct (Z.ltb_spec (micro now) T) as [L'|L']; try lia.
  - destruct (Z.leb_spec (ordinal now + 1) 3652059) as [M|M]; [reflexivity|lia].
  - reflexivity.
Qed.

Lemma next_fire_spec now :
  valid now -> lt now LAST_FIRE ->
  exists f,
    next_fire now = Ok f /\ valid f /\ micro f = DAILY_PHOTO_TIME /\
    lt now f /\
    (forall g, micro g = DAILY_PHOTO_TIME -> lt now g -> le f g) /\
    (0 < total_seconds_between f now <= 86400)%Q.
Proof.
  intros V H. rewrite (next_fire_cases now H).
  eexists. split; [reflexivity|].
  pose proof DAILY_PHOTO_TIME_range as R.
  unfold valid, lt, le, LAST_FIRE, combine, total_seconds_between in *.
  cbn [ordinal micro] in *.
  unfold MINORDINAL, MAXORDINAL, DAY_MICROS in *.
  destruct (Z.ltb_spec (micro now) DAILY_PHOTO_TIME) as [L|L].
  - repeat split; try lia.
    + intros g Hg Hlt. destruct g as [go gm]. cbn [ordinal micro] in *. subst gm.
      assert (ordinal now < go \/ ordinal now = go)%Z as [C|C] by lia.
      * left. unfold lt. cbn [ordinal micro]. lia.
      * right. f_equal. lia.
    + unfold Qlt. cbn [Qnum Qden]. lia.
    + unfold Qle. cbn [Qnum Qden]. lia.
  - repeat split; try lia.
    + intros g Hg Hlt. destruct g as [go gm]. cbn [ordinal micro] in *. subst gm.
      assert (ordinal now + 1 < go \/ ordinal now + 1 = go)%Z as [C|C] by lia.
      * left. unfold lt. cbn [ordinal micro]. lia.
      * right. f_equal. lia.
    + unfold Qlt. cbn [Qnum Qden]. lia.
    + unfold Qle. cbn [Qnum Qden]. lia.
Qed.

(** C4.  For every current time before the last 14:00 of the calendar, the
    scheduler's next fire instant exists and is the next occurrence of the
    configured time of day strictly after now: it is at 14:00, it is later
    than now, no 14:00 lies in between, and the wait is positive and at most
    a day.  On any day but the last, at 15:00 the next fire is 14:00 of the
    following day, and at 13:00 it is 14:00 of the same day. *)
Theorem C4_next_fire_is_next_occurrence now day :
  valid now -> lt now LAST_FIRE ->
  (MINORDINAL <= day < MAXORDINAL)%Z ->
  (exists f,
      next_fire now = Ok f /\ valid f /\ micro f = DAILY_PHOTO_TIME /\
      lt now f /\
      (forall g, micro g = DAILY_PHOTO_TIME -> lt now g -> le f g) /\
      (0 < total_seconds_between f now <= 86400)%Q) /\
  next_fire (combine day (dt_time 15 0)) = Ok (combine (day + 1) (dt_time 14 0)) /\
  next_fire (combine day (dt_time 13 0)) = Ok (combine day (dt_time 14 0)).
Proof.
  intros V H D. split; [apply next_fire_spec; assumption|].
  unfold MINORDINAL, MAXORDINAL in D.
  split; rewrite next_fire_cases; try reflexivity;
    unfold lt, LAST_FIRE, combine, MAXORDINAL; cbn [ordinal micro]; lia.
Qed.

End NextFire.

Lemma C4_next_fire_is_next_occurrence_witness :
  next_fire (DateTime.combine 739007 (DateTime.dt_time 15 0))
  = Ok (DateTime.combine 739008 (DateTime.dt_time 14 0))
  /\ next_fire (DateTime.combine 739007 (DateTime.dt_time 13 0))
     = Ok (DateTime.combine 739007 (DateTime.dt_time 14 0)).
Proof.
  apply (C4_next_fire_is_next_occurrence
           (DateTime.combine 739007 (DateTime.dt_time 15 0)) 739007).
  - vm_compute. intuition discriminate.
  - left. reflexivity.
  - vm_compute. intuition discriminate.
Defined.

Section Tasks.
Import DateTime.
Context {ndarray contour MOG2 : Type}.
Variable cv2 : cv2_module ndarray contour MOG2.
Variables TELEGRAM_TOKEN CHAT_ID : string.
Variable strftime : datetime -> string.
Variable format_1f : Q -> string.

Local Abbreviation tick_step := (step cv2 TELEGRAM_TOKEN CHAT_ID strftime format_1f).
Local Abbreviation fire := (@scheduler_fire ndarray MOG2 TELEGRAM_TOKEN CHAT_ID).

(** From the top of its loop the scheduler goes to sleep until the instant
    [next_fire] gives. *)
Lemma plan_tick_sleeps (s : @System ndarray MOG2) now f :
  scheduler s = SchedulerTop ->
  next_fire now = Ok f ->
  scheduler (plan_tick strftime format_1f s now) = SchedulerSleeping f
  /\ halted (plan_tick strftime format_1f s now) = false.
Proof.
  intros Hs Hf. unfold plan_tick, scheduler_plan. rewrite Hs, Hf. cbn [bind].
  split; reflexivity.
Qed.

(** C6.  When the scheduler wakes up and the latest-frame slot is empty, it
    hands exactly one [WARNING] record to the logger and does nothing else:
    no call of the bot, the detector untouched, nothing raised, both tasks
    still running.  Back at the top of its loop it computes the next fire
    instant afresh, strictly later than the clock it reads; when that clock
    still shows the day of the missed photo, at or after 14:00, the next
    fire is 14:00 of the following day. *)
Theorem C6_empty_slot_skips_the_daily_photo
    (s : @System ndarray MOG2) w scheduled now :
  halted s = false ->
  scheduler s = SchedulerSleeping scheduled ->
  latest_frame (detector s) = None ->
  valid now -> lt now LAST_FIRE ->
  let s' := tick_step s (Fire w) in
  fire (detector s) w = [Logged Logging.WARNING "No frame available for daily photo"] /\
  trace s' = (trace s ++ fire (detector s) w)%list /\
  existsb is_sink_call (fire (detector s) w) = false /\
  attempted (fire (detector s) w) = false /\
  List.length (filter is_warning (fire (detector s) w)) = 1%nat /\
  detector s' = detector s /\ capture s' = capture s /\
  halted s' = false /\ scheduler s' = SchedulerTop /\
  exists f,
    scheduler (tick_step s' (Plan now)) = SchedulerSleeping f /\
    halted (tick_step s' (Plan now)) = false /\
    next_fire now = Ok f /\ micro f = DAILY_PHOTO_TIME /\ lt now f /\
    (ordinal now = ordinal scheduled -> (DAILY_PHOTO_TIME <= micro now)%Z ->
     f = combine (ordinal scheduled + 1) DAILY_PHOTO_TIME).
Proof.
  intros Hh Hs Hl V Hlt s'.
  assert (F : fire (detector s) w
              = [Logged Logging.WARNING "No frame available for daily photo"]).
  { unfold scheduler_fire. rewrite Hl. reflexivity. }
  assert (E : s' = {| detector := detector s; capture := capture s;
                      scheduler := SchedulerTop; exited := None;
                      trace := (trace s ++ fire (detector s) w)%list |}).
  { unfold s', step, fire_tick. rewrite Hh, Hs. reflexivity. }
  split; [exact F|].
  rewrite E. cbn [trace detector capture halted exited scheduler]. rewrite F.
  repeat (split; [reflexivity|]).
  destruct (next_fire_spec now V Hlt) as (f & Hf & _ & Hm & Hn & _).
  exists f. unfold step. cbn [halted exited].
  destruct (plan_tick_sleeps
              {| detector := detector s; capture := capture s;
                 scheduler := SchedulerTop; exited := None;
                 trace := (trace s ++ [Logged Logging.WARNING
                             "No frame available for daily photo"])%list |}
              now f eq_refl Hf) as [P1 P2].
  repeat (split; [assumption|]).
  intros Hd Ht. rewrite (next_fire_cases now Hlt) in Hf.
  destruct (Z.ltb_spec (micro now) DAILY_PHOTO_TIME) as [L|L]; [lia|].
  injection Hf as <-. rewrite Hd. reflexivity.
Qed.

(** What a tick does to [latest_frame]: a cycle that reads a frame stores
    that frame, and nothing else writes the slot. *)
Lemma step_latest_frame (s : @System ndarray MOG2) t :
  latest_frame (detector (tick_step s t)) =
  match t with
  | Capture w =>
      match read w with
      | FrameRead frame =>
          if capturing s then Some frame else latest_frame (detector s)
      | _ => latest_frame (detector s)
      end
  | _ => latest_frame (detector s)
  end.
Proof.
  unfold step, capturing. destruct (halted s) eqn:Hh.
  - destruct t as [w| | |]; try reflexivity. destruct (read w); reflexivity.
  - destruct t as [w|now|w|].
    + unfold capture_tick.
      pose proof (run_cycle_latest_frame cv2 TELEGRAM_TOKEN CHAT_ID (detector s) w) as L.
      destruct (run_cycle cv2 TELEGRAM_TOKEN CHAT_ID (detector s) w) as [[d' ev] flow].
      cbn [fst snd] in L.
      destruct (capture s); destruct (read w); cbn [negb andb detector];
        try reflexivity; apply L.
    + rewrite plan_tick_detector. reflexivity.
    + rewrite fire_tick_detector. reflexivity.
    + rewrite interrupt_tick_detector. reflexivity.
Qed.

Lemma last_map_app {A} (x : list A) (y : list A) (d : option A) :
  last (map Some (x ++ y)) d = last (map Some y) (last (map Some x) d).
Proof.
  rewrite map_app. generalize (map Some y) as l. intros l.
  induction l as [|a l IH] using rev_ind.
  - rewrite app_nil_r. reflexivity.
  - rewrite app_assoc, !last_last. reflexivity.
Qed.

Lemma exec_latest_frame ticks : forall s : @System ndarray MOG2,
  latest_frame (detector (exec cv2 TELEGRAM_TOKEN CHAT_ID strftime format_1f s ticks))
  = last (map Some (frames_read cv2 TELEGRAM_TOKEN CHAT_ID strftime format_1f s ticks))
      (latest_frame (detector s)).
Proof.
  induction ticks as [|t ticks IH]; intros s; [reflexivity|].
  cbn [exec fold_left frames_read]. fold (exec cv2 TELEGRAM_TOKEN CHAT_ID strftime format_1f).
  rewrite last_map_app.
  change (fold_left tick_step ticks (tick_step s t))
    with (exec cv2 TELEGRAM_TOKEN CHAT_ID strftime format_1f (tick_step s t) ticks).
  rewrite IH, step_latest_frame.
  destruct t as [w| | |]; try reflexivity.
  destruct (read w); try reflexivity.
  destruct (capturing s); reflexivity.
Qed.

(** C8.  The slot is an [option]: it never holds more than one frame.  It is
    empty when [__init__] returns, and after any sequence of turns of the
    two tasks it holds the newest frame the camera has delivered, or is
    still empty when none was delivered.  A tick changes the slot only when
    the capture loop reads a frame, and then it puts that frame there. *)
Theorem C8_slot_holds_the_newest_frame isOpened d ev ticks :
  MotionDetector_init cv2 TELEGRAM_TOKEN CHAT_ID isOpened = Ok (d, ev) ->
  latest_frame d = None /\
  latest_frame
    (detector (exec cv2 TELEGRAM_TOKEN CHAT_ID strftime format_1f (boot d ev) ticks))
  = last (map Some
            (frames_read cv2 TELEGRAM_TOKEN CHAT_ID strftime format_1f (boot d ev) ticks))
      None /\
  forall s t,
    latest_frame (detector (tick_step s t)) =
    match t with
    | Capture w =>
        match read w with
        | FrameRead frame =>
            if capturing s then Some (copy frame) else latest_frame (detector s)
        | _ => latest_frame (detector s)
        end
    | _ => latest_frame (detector s)
    end.
Proof.
  intros H.
  assert (N : latest_frame d = None).
  { unfold MotionDetector_init in H.
    destruct ((TELEGRAM_TOKEN =? "") || negb (PyStr.contains TELEGRAM_TOKEN ":"));
      [discriminate|].
    injection H as <- _. reflexivity. }
  split; [exact N|]. split.
  - rewrite exec_latest_frame. cbn [boot detector]. rewrite N. reflexivity.
  - intros s t. apply step_latest_frame.
Qed.

End Tasks.

Lemma C6_empty_slot_skips_the_daily_photo_witness :
  existsb is_sink_call
    (scheduler_fire Bench.TOKEN Bench.CHAT (detector Bench.asleep) Bench.wake) = false
  /\ scheduler (step Bench.cv2 Bench.TOKEN Bench.CHAT Bench.strftime Bench.format_1f
                  Bench.asleep (Fire Bench.wake))
     = SchedulerTop.
Proof.
  destruct (C6_empty_slot_skips_the_daily_photo Bench.cv2 Bench.TOKEN Bench.CHAT
              Bench.strftime Bench.format_1f Bench.asleep Bench.wake
              (DateTime.combine 739007 (DateTime.dt_time 14 0))
              (DateTime.combine 739007 (DateTime.dt_time 14 0)))
    as (_ & _ & A & _ & _ & _ & _ & _ & B & _).
  - reflexivity.
  - reflexivity.
  - reflexivity.
  - vm_compute. intuition discriminate.
  - left. reflexivity.
  - split; [exact A|exact B].
Defined.

Lemma C8_slot_holds_the_newest_frame_witness :
  latest_frame
    (detector
       (exec Bench.cv2 Bench.TOKEN Bench.CHAT Bench.strftime Bench.format_1f
          (boot Bench.fresh Bench.startup_log)
          [Capture (Bench.busy 10 BotReturned);
           Plan (DateTime.combine 739007 (DateTime.dt_time 9 0));
           Capture {| read := FrameRead (Some [7]); time_time := 11;
                      time_ctime := "Thu Jan  1 00:00:11 1970"; send := BotReturned |};
           Fire Bench.wake;
           Capture {| read := NoFrame; time_time := 12;
                      time_ctime := "Thu Jan  1 00:00:12 1970"; send := BotReturned |};
           Capture (Bench.busy 13 BotReturned)]))
  = Some (Some [7]).
Proof.
  destruct (C8_slot_holds_the_newest_frame Bench.cv2 Bench.TOKEN Bench.CHAT
              Bench.strftime Bench.format_1f true Bench.fresh Bench.startup_log
              [Capture (Bench.busy 10 BotReturned);
               Plan (DateTime.combine 739007 (DateTime.dt_time 9 0));
               Capture {| read := FrameRead (Some [7]); time_time := 11;
                          time_ctime := "Thu Jan  1 00:00:11 1970"; send := BotReturned |};
               Fire Bench.wake;
               Capture {| read := NoFrame; time_time := 12;
                          time_ctime := "Thu Jan  1 00:00:12 1970"; send := BotReturned |};
               Capture (Bench.busy 13 BotReturned)] eq_refl)
    as (_ & L & _).
  rewrite L. reflexivity.
Defined.

(** ** Start-up and exit status (lines 16-21, 74-77, 231-243 and 245-246) *)

Section ExitStatus.
Import PyStr.
Context {ndarray contour MOG2 : Type}.
Variable cv2 : cv2_module ndarray contour MOG2.
Variables TELEGRAM_TOKEN CHAT_ID : string.
Variable strftime : DateTime.datetime -> string.
Variable format_1f : Q -> string.

Local Abbreviation tick_step := (step cv2 TELEGRAM_TOKEN CHAT_ID strftime format_1f).

Lemma not_halted_exited (s : @System ndarray MOG2) :
  halted s = false -> exited s = None.
Proof. unfold halted. destruct (exited s); [discriminate|reflexivity]. Qed.

(** C7, as the code has it.  At start-up: with a credential missing or
    empty, the [ValueError] of line 21 is caught by nobody and the process
    ends with status 1, with nothing logged and the camera never acquired;
    with both set but no colon in the token, [__init__] raises before it
    acquires the camera, [main] logs the configuration error and returns,
    and the process ends with status 0; otherwise the camera is acquired
    and the two tasks start, the process running.  At shutdown: an
    interrupt cancels the tasks, the capture loop releases the camera in its
    [finally] clause if it was running, and the process ends with the
    [KeyboardInterrupt] uncaught, status 130 and not 0.  The only way to
    status 0 once the tasks run is that [main] returns, after it has logged
    the exception of the scheduler; every other turn leaves the process
    running. *)
Theorem C7_exit_status (env : Environ) (isOpened : bool)
    (s : @System ndarray MOG2) (t : tick) :
  let token := text (TELEGRAM_BOT_TOKEN env) in
  let chat := text (TELEGRAM_CHAT_ID env) in
  script cv2 env isOpened =
  (if falsy (TELEGRAM_BOT_TOKEN env) || falsy (TELEGRAM_CHAT_ID env)
   then Exited 1 []
   else if negb (contains token ":")
   then Exited 0
          [Logged Logging.ERROR "Configuration error: Invalid Telegram bot token format"]
   else Serving
          (boot {| last_sent := 0; frame_count := 0; latest_frame := None;
                   back_sub := createBackgroundSubtractorMOG2 cv2 |}
             [VideoCapture;
              Logged Logging.INFO "Motion detector initialized successfully";
              Logged Logging.INFO ("Camera status: " ++ py_bool isOpened);
              Logged Logging.INFO "Min contour area: 5000";
              Logged Logging.INFO "Send interval: 3 seconds";
              Logged Logging.INFO "Daily photo time: 14:00";
              Logged Logging.INFO "Bot initialized: True"])) /\
  (forall d ev, exited (@boot ndarray MOG2 d ev) = None) /\
  exited (tick_step s t) =
  (if halted s then exited s
   else match t with
        | Interrupt => Some 130%Z
        | Plan now =>
            match scheduler s with
            | SchedulerSleeping _ => None
            | _ => match next_fire now with
                   | Ok _ => None
                   | Raise _ => Some 0%Z
                   end
            end
        | _ => None
        end) /\
  trace (tick_step s Interrupt) =
  (if halted s then trace s
   else app (trace s)
          match capture s with
          | CaptureLoop =>
              [CapRelease; Logged Logging.INFO "Motion detector stopped"]
          | _ => []
          end) /\
  detector (tick_step s Interrupt) = detector s.
Proof.
  intros token chat. split.
  { unfold script, load_config.
    destruct (falsy (TELEGRAM_BOT_TOKEN env)) eqn:Ft; [reflexivity|].
    destruct (falsy (TELEGRAM_CHAT_ID env)) eqn:Fc; [reflexivity|].
    cbn [orb]. fold token chat.
    assert (Nt : (token =? "") = false).
    { unfold token. destruct (TELEGRAM_BOT_TOKEN env) as [[|c t0]|]; try discriminate.
      reflexivity. }
    assert (Nc : (chat =? "") = false).
    { unfold chat. destruct (TELEGRAM_CHAT_ID env) as [[|c t0]|]; try discriminate.
      reflexivity. }
    unfold main_start, MotionDetector_init. rewrite Nt, Nc. cbn [orb negb andb].
    destruct (contains token ":"); reflexivity. }
  split; [reflexivity|].
  unfold step.
  destruct (halted s) eqn:Hh; [repeat split|].
  pose proof (not_halted_exited s Hh) as Hx.
  split; [|split].
  - destruct t as [w|now|w|].
    + unfold capture_tick. destruct (capture s); try exact Hx;
        destruct (run_cycle cv2 TELEGRAM_TOKEN CHAT_ID (detector s) w) as [[d' ev] flow];
        reflexivity.
    + unfold plan_tick, scheduler_plan.
      destruct (scheduler s); try exact Hx;
        (destruct (next_fire now); cbn [bind]; [reflexivity|apply shutdown_exited]).
    + unfold fire_tick. destruct (scheduler s); try exact Hx. reflexivity.
    + apply shutdown_exited.
  - unfold interrupt_tick. rewrite shutdown_trace.
    destruct (capture s); reflexivity.
  - apply shutdown_detector.
Qed.

End ExitStatus.

(** C7 as stated fails both ways.  A token without a colon is a start-up
    configuration failure, and the process still ends with status 0.  An
    interrupt while both tasks run releases the camera and ends the process
    with status 130, not 0. *)
Lemma C7_wrong_status_both_ways :
  script Bench.cv2
    {| TELEGRAM_BOT_TOKEN := Some "not-a-token"; TELEGRAM_CHAT_ID := Some Bench.CHAT |}
    true
  = Exited 0
      [Logged Logging.ERROR "Configuration error: Invalid Telegram bot token format"]
  /\
  match script Bench.cv2
          {| TELEGRAM_BOT_TOKEN := Some Bench.TOKEN; TELEGRAM_CHAT_ID := Some Bench.CHAT |}
          true with
  | Serving s =>
      let s' := exec Bench.cv2 Bench.TOKEN Bench.CHAT Bench.strftime Bench.format_1f s
                  [Capture (Bench.busy 10 BotReturned); Interrupt] in
      exited s' = Some 130%Z
      /\ (forall status, exited s' = Some status -> status <> 0%Z)
      /\ count is_release (trace s') = 1%nat
  | Exited _ _ => False
  end.
Proof.
  split; [reflexivity|]. cbn.
  split; [reflexivity|]. split; [|reflexivity].
  intros status H. injection H as <-. discriminate.
Qed.

(** * Further properties of the code *)

(** ** [SecureFormatter.format] and the sanitising in [send_photo] *)

Section Redaction.
Import PyStr PyStrFacts Logging.

(** Replacing a word that does not occur changes nothing. *)
Lemma replace_scan_absent old new : forall fuel s,
  contains s old = false -> replace_scan fuel s old new = s.
Proof.
  induction fuel as [|fuel IH]; intros s H; [reflexivity|].
  destruct s as [|c s]; [reflexivity|].
  change (contains (String c s) old)
    with (startswith (String c s) old || contains s old) in H.
  apply orb_false_iff in H as [H1 H2].
  cbn [replace_scan]. rewrite H1, (IH s H2). reflexivity.
Qed.

Lemma replace_absent s old new :
  contains s old = false -> replace s old new = s.
Proof.
  intros H. unfold replace. destruct old.
  - rewrite contains_nil in H. discriminate.
  - apply replace_scan_absent. exact H.
Qed.

Lemma mask_secrets_clean s : forall secrets,
  (forall x, In x secrets -> (4 < len x)%nat -> contains s x = false) ->
  mask_secrets secrets s = s.
Proof.
  induction secrets as [|x secrets IH]; intros H; [reflexivity|].
  cbn [mask_secrets].
  assert (E : (if negb (x =? "") && (4 <? len x)%nat
               then replace s x MASK else s) = s).
  { destruct (negb (x =? "") && (4 <? len x)%nat) eqn:G; [|reflexivity].
    apply andb_true_iff in G as [_ G]. apply Nat.ltb_lt in G.
    apply replace_absent. apply H; [left; reflexivity|exact G]. }
  rewrite E. apply IH. intros y Hy. apply H. right. exact Hy.
Qed.

(** X1.  A record whose plain text holds none of the secrets that the
    formatter masks (those longer than four characters) comes out of
    [SecureFormatter.format] exactly as [logging.Formatter.format] made it:
    masking never alters a line that has nothing to hide. *)
Theorem X1_clean_record_is_left_alone secrets r :
  (forall x, In x secrets -> (4 < len x)%nat ->
             contains (Formatter_format r) x = false) ->
  SecureFormatter_format secrets r = Formatter_format r.
Proof. intros H. unfold SecureFormatter_format. apply mask_secrets_clean. exact H. Qed.

(** X2.  In the [TelegramError] clause of [send_photo] the text put after
    ["Telegram send error: "] holds neither credential, whatever their
    lengths, as long as both are non-empty and free of asterisks: lines
    123-126 mask without the length guard of the formatter. *)
Theorem X2_telegram_error_text_is_sanitized
    (ndarray : Type) (token chat msg x : string) :
  token <> "" -> chat <> "" ->
  x = token \/ x = chat ->
  star_free x = true ->
  @send_photo_except ndarray token chat (Exn TelegramError msg)
    = [Logged ERROR ("Telegram send error: " ++ sanitize token chat msg)]
  /\ contains (sanitize token chat msg) x = false.
Proof.
  intros Ht Hc Hx Hsf. split; [reflexivity|].
  unfold sanitize. change "***" with MASK.
  set (m1 := if contains msg token then replace msg token MASK else msg).
  destruct Hx as [-> | ->].
  - assert (A : contains m1 token = false).
    { unfold m1. destruct (contains msg token) eqn:E; [|exact E].
      apply replace_masks; assumption. }
    destruct (contains m1 chat); [|exact A].
    apply replace_keeps_absent; assumption.
  - destruct (contains m1 chat) eqn:E; [|exact E].
    apply replace_masks; assumption.
Qed.

End Redaction.

Lemma X1_clean_record_is_left_alone_witness :
  Logging.setup_logging Bench.TOKEN Bench.CHAT
    {| Logging.asctime := "2024-05-01 14:00:00,000"; Logging.name := "__main__";
       Logging.lvl := Logging.INFO; Logging.message := "Motion detector stopped" |}
  = "2024-05-01 14:00:00,000 - __main__ - INFO - Motion detector stopped".
Proof.
  unfold Logging.setup_logging.
  rewrite (X1_clean_record_is_left_alone [Bench.TOKEN; Bench.CHAT]).
  - reflexivity.
  - intros x [<-|[<-|[]]] _; reflexivity.
Defined.

Lemma X2_telegram_error_text_is_sanitized_witness :
  PyStr.contains
    (sanitize Bench.TOKEN "4242" "Forbidden: bot was blocked in chat 4242") "4242"
  = false.
Proof.
  apply (X2_telegram_error_text_is_sanitized Bench.frame Bench.TOKEN "4242"
           "Forbidden: bot was blocked in chat 4242" "4242").
  - discriminate.
  - discriminate.
  - right. reflexivity.
  - reflexivity.
Defined.

(** ** [send_photo] (lines 100-129) *)

Section SendPhoto.
Context {ndarray : Type}.
Variables TELEGRAM_TOKEN CHAT_ID : string.

Local Abbreviation send_photo' := (@send_photo ndarray TELEGRAM_TOKEN CHAT_ID).

(** X3.  Whatever happens to the delivery, one call of [send_photo] writes
    the frame first, calls the bot at most once (never when the file could
    not be written), hands exactly one record to the logger, and removes
    the temporary file only after a successful delivery: after a failure
    the file stays. *)
Theorem X3_send_photo_effects (frame : ndarray) caption ctime o :
  let ev := send_photo' frame caption ctime o in
  hd_error ev = Some (Imwrite frame) /\
  count is_attempt ev = 1%nat /\
  count is_sink_call ev
    = match o with SaveRaised _ => 0%nat | _ => 1%nat end /\
  count is_record ev = 1%nat /\
  count is_remove ev
    = match o with BotReturned => 1%nat | _ => 0%nat end /\
  count is_release ev = 0%nat.
Proof.
  destruct o as [[[] m]|[[] m]|]; repeat split.
Qed.


End SendPhoto.


(** ** [process_frame] (lines 131-162), further *)

Section Contours.
Context {ndarray contour MOG2 : Type}.
Variable cv2 : cv2_module ndarray contour MOG2.

(** The loop stops at the first contour above the threshold. *)
Lemma any_significant_stops a c after : forall before,
  (forall c', In c' before ->
     exists a', contourArea cv2 c' = Ok a' /\ (a' <= MIN_CONTOUR_AREA)%Q) ->
  contourArea cv2 c = Ok a -> (MIN_CONTOUR_AREA < a)%Q ->
  any_significant cv2 (before ++ c :: after)%list = Ok true.
Proof.
  induction before as [|b before IH]; intros Hb Hc Ha.
  - cbn [app any_significant]. rewrite Hc. cbn [bind].
    apply Qgtb_lt in Ha. rewrite Ha. reflexivity.
  - cbn [app any_significant].
    destruct (Hb b (or_introl eq_refl)) as (a' & Ea & La). rewrite Ea. cbn [bind].
    assert (G : Qgtb a' MIN_CONTOUR_AREA = false).
    { destruct (Qgtb a' MIN_CONTOUR_AREA) eqn:E; [|reflexivity].
      apply Qgtb_lt in E. exfalso. exact (Qlt_not_le _ _ E La). }
    rewrite G. apply IH; try assumption.
    intros c' Hc'. apply Hb. right. exact Hc'.
Qed.

(** X5.  The first contour above the threshold settles the frame: the
    contours after it are not measured, so [process_frame] reports motion
    and logs nothing even when [contourArea] would raise on a later
    contour. *)
Theorem X5_first_large_contour_decides
    (d : @MotionDetector ndarray MOG2) frame before c after a :
  snd (extract_contours cv2 (back_sub d) frame) = Ok (before ++ c :: after)%list ->
  (forall c', In c' before ->
     exists a', contourArea cv2 c' = Ok a' /\ (a' <= MIN_CONTOUR_AREA)%Q) ->
  contourArea cv2 c = Ok a -> (MIN_CONTOUR_AREA < a)%Q ->
  snd (fst (process_frame cv2 d frame)) = true /\
  snd (process_frame cv2 d frame) = [].
Proof.
  intros Hx Hb Hc Ha.
  pose proof (process_frame_extracted cv2 d frame _ Hx) as P.
  rewrite (any_significant_stops a c after before Hb Hc Ha) in P. exact P.
Qed.

(** X6.  [process_frame] changes nothing of the detector but the background
    model: the cooldown stamp, the latest-frame slot and the frame counter
    come back as they went in.  When the frame fails before it reaches the
    background subtractor (in [cvtColor] or [GaussianBlur]), the background
    model is untouched too. *)
Theorem X6_process_frame_touches_the_model_only
    (d : @MotionDetector ndarray MOG2) frame :
  let d' := fst (fst (process_frame cv2 d frame)) in
  last_sent d' = last_sent d /\
  latest_frame d' = latest_frame d /\
  frame_count d' = frame_count d /\
  (forall e, cvtColor cv2 frame = Raise e -> d' = d) /\
  (forall gray e, cvtColor cv2 frame = Ok gray ->
                  GaussianBlur cv2 gray = Raise e -> d' = d).
Proof.
  intros d'.
  pose proof (process_frame_spec cv2 d frame) as P.
  subst d'. unfold process_frame, detect, extract_contours in *.
  split; [|split; [|split; [|split]]].
  1-3: destruct (gray <- cvtColor cv2 frame ;; GaussianBlur cv2 gray) as [g|e];
       [destruct (MOG2_apply cv2 (back_sub d) g) as [bs' [fg|e]]; cbn [bind];
        [destruct (fg_mask <- morphologyEx cv2 fg MORPH_CLOSE;;
                   fg_mask0 <- morphologyEx cv2 fg_mask MORPH_OPEN;;
                   findContours cv2 fg_mask0) as [cs|e]; cbn [bind];
         [destruct (any_significant cv2 cs)|]|]|]; reflexivity.
  - intros e H. rewrite H. cbn [bind fst]. destruct d; reflexivity.
  - intros gray e H1 H2. rewrite H1. cbn [bind]. rewrite H2. cbn [fst].
    destruct d; reflexivity.
Qed.

End Contours.

Lemma X5_first_large_contour_decides_witness :
  process_frame Picky.cv2 Bench.fresh (Some [10; 6000; -1])
  = (Bench.fresh, true, []).
Proof.
  destruct (X5_first_large_contour_decides Picky.cv2 Bench.fresh
              (Some [10; 6000; -1]) [10] 6000 [-1] 6000) as [M L].
  - reflexivity.
  - intros c' [<-|[]]. exists 10. split; [reflexivity|].
    unfold MIN_CONTOUR_AREA. lra.
  - reflexivity.
  - unfold MIN_CONTOUR_AREA. lra.
  - reflexivity.
Defined.

Lemma X6_process_frame_touches_the_model_only_witness :
  fst (fst (process_frame Bench.cv2 Bench.fresh None)) = Bench.fresh.
Proof.
  destruct (X6_process_frame_touches_the_model_only Bench.cv2 Bench.fresh None)
    as (_ & _ & _ & H & _).
  apply (H (Exn OtherException "empty frame")). reflexivity.
Defined.

(** ** The capture loop over a run (lines 198-229) *)

Section Run.
Context {ndarray contour MOG2 : Type}.
Variable cv2 : cv2_module ndarray contour MOG2.
Variables TELEGRAM_TOKEN CHAT_ID : string.
Variable strftime : DateTime.datetime -> string.
Variable format_1f : Q -> string.

Local Abbreviation cycle := (run_cycle cv2 TELEGRAM_TOKEN CHAT_ID).
Local Abbreviation tick_step := (step cv2 TELEGRAM_TOKEN CHAT_ID strftime format_1f).
Local Abbreviation run := (exec cv2 TELEGRAM_TOKEN CHAT_ID strftime format_1f).

Lemma run_cons (s : @System ndarray MOG2) t ticks :
  run s (t :: ticks) = run (tick_step s t) ticks.
Proof. reflexivity. Qed.

(** An attempt is made only when the cooldown is over. *)
Lemma attempted_cooldown d w :
  attempted (snd (fst (cycle d w))) = true ->
  (SEND_INTERVAL < time_time w - last_sent d)%Q.
Proof.
  rewrite run_cycle_attempted. destruct (read w); try discriminate.
  intros H. apply andb_true_iff in H as [_ H].
  apply cooldown_over_spec. exact H.
Qed.

Lemma run_cycle_last_sent_le d w :
  (last_sent d <= last_sent (fst (fst (cycle d w))))%Q.
Proof.
  rewrite run_cycle_last_sent.
  destruct (attempted (snd (fst (cycle d w)))) eqn:A; [|apply Qle_refl].
  apply attempted_cooldown in A. unfold SEND_INTERVAL in A. lra.
Qed.

Lemma step_last_sent_le (s : @System ndarray MOG2) t :
  (last_sent (detector s) <= last_sent (detector (tick_step s t)))%Q.
Proof.
  unfold step. destruct (halted s); [apply Qle_refl|].
  destruct t as [w|now|w|].
  - unfold capture_tick.
    pose proof (run_cycle_last_sent_le (detector s) w) as L.
    destruct (capture s); try apply Qle_refl;
      destruct (cycle (detector s) w) as [[d' ev] flow]; exact L.
  - rewrite plan_tick_detector. apply Qle_refl.
  - rewrite fire_tick_detector. apply Qle_refl.
  - rewrite interrupt_tick_detector. apply Qle_refl.
Qed.

(** X7.  Over any run of the two tasks the cooldown stamp never goes back:
    [last_sent] at the end is at least what it was at the start, whatever
    the clock readings were. *)
Theorem X7_last_sent_never_decreases ticks : forall s : @System ndarray MOG2,
  (last_sent (detector s) <= last_sent (detector (run s ticks)))%Q.
Proof.
  induction ticks as [|t ticks IH]; intros s; [apply Qle_refl|].
  rewrite run_cons.
  eapply Qle_trans; [apply step_last_sent_le|apply IH].
Qed.

(** X8.  Debounce.  In any run of the capture loop, every send attempt comes
    more than [SEND_INTERVAL] after the previous one, and the first more
    than [SEND_INTERVAL] after the stamp the run started with. *)
Theorem X8_attempts_are_spaced ws : forall d : @MotionDetector ndarray MOG2,
  spaced (last_sent d) (attempt_times cv2 TELEGRAM_TOKEN CHAT_ID d ws).
Proof.
  induction ws as [|w ws IH]; intros d; [exact I|].
  cbn [attempt_times].
  pose proof (run_cycle_last_sent cv2 TELEGRAM_TOKEN CHAT_ID d w) as L.
  pose proof (attempted_cooldown d w) as C.
  destruct (cycle d w) as [[d' ev] flow]. cbn [fst snd] in L, C.
  assert (R : spaced (last_sent d')
                match flow with
                | Continue => attempt_times cv2 TELEGRAM_TOKEN CHAT_ID d' ws
                | Left => []
                end)
    by (destruct flow; [apply IH|exact I]).
  destruct (attempted ev).
  - cbn [app spaced]. split; [apply C; reflexivity|]. rewrite <- L. exact R.
  - cbn [app]. rewrite <- L. exact R.
Qed.

Lemma run_cycle_frame_count d w :
  frame_count (fst (fst (cycle d w))) = frame_count d.
Proof.
  unfold run_cycle.
  destruct (read w) as [frame| |e|]; cbn [fst snd]; try reflexivity.
  pose proof (process_frame_spec cv2 (set_latest_frame (Some (copy frame)) d) frame) as P.
  destruct (process_frame cv2 (set_latest_frame (Some (copy frame)) d) frame)
    as [[d' m] ev].
  destruct P as (_ & _ & Fc & _).
  destruct (m && cooldown_over (time_time w) (last_sent d')); exact Fc.
Qed.

Lemma step_frame_count (s : @System ndarray MOG2) t :
  frame_count (detector (tick_step s t)) = frame_count (detector s).
Proof.
  unfold step. destruct (halted s); [reflexivity|].
  destruct t as [w|now|w|].
  - unfold capture_tick.
    pose proof (run_cycle_frame_count (detector s) w) as L.
    destruct (capture s); try reflexivity;
      destruct (cycle (detector s) w) as [[d' ev] flow]; exact L.
  - rewrite plan_tick_detector. reflexivity.
  - rewrite fire_tick_detector. reflexivity.
  - rewrite interrupt_tick_detector. reflexivity.
Qed.

(** X9.  The field [frame_count] is written by [__init__] only: after any
    run it still holds the 0 it was given, however many frames were read. *)
Theorem X9_frame_count_stays_zero isOpened d ev ticks :
  MotionDetector_init cv2 TELEGRAM_TOKEN CHAT_ID isOpened = Ok (d, ev) ->
  frame_count (detector (run (boot d ev) ticks)) = 0%Z.
Proof.
  intros H.
  assert (Z0 : frame_count d = 0%Z).
  { unfold MotionDetector_init in H.
    destruct ((TELEGRAM_TOKEN =? "") || negb (PyStr.contains TELEGRAM_TOKEN ":"));
      [discriminate|].
    injection H as <- _. reflexivity. }
  assert (G : forall ticks (s : @System ndarray MOG2),
             frame_count (detector (run s ticks)) = frame_count (detector s)).
  { clear. induction ticks as [|t ticks IH]; intros s; [reflexivity|].
    rewrite run_cons, IH. apply step_frame_count. }
  rewrite G. exact Z0.
Qed.

End Run.

Lemma X9_frame_count_stays_zero_witness :
  frame_count
    (detector
       (exec Bench.cv2 Bench.TOKEN Bench.CHAT Bench.strftime Bench.format_1f
          (boot Bench.fresh Bench.startup_log)
          [Capture (Bench.busy 10 BotReturned); Capture (Bench.busy 20 BotReturned)]))
  = 0%Z.
Proof.
  apply (X9_frame_count_stays_zero Bench.cv2 Bench.TOKEN Bench.CHAT
           Bench.strftime Bench.format_1f true Bench.fresh Bench.startup_log).
  reflexivity.
Defined.

(** ** Leaving the capture loop (lines 204-207 and 223-229) *)

Section Release.
Context {ndarray contour MOG2 : Type}.
Variable cv2 : cv2_module ndarray contour MOG2.
Variables TELEGRAM_TOKEN CHAT_ID : string.
Variable strftime : DateTime.datetime -> string.
Variable format_1f : Q -> string.

Local Abbreviation cycle := (run_cycle cv2 TELEGRAM_TOKEN CHAT_ID).
Local Abbreviation tick_step := (step cv2 TELEGRAM_TOKEN CHAT_ID strftime format_1f).
Local Abbreviation run := (exec cv2 TELEGRAM_TOKEN CHAT_ID strftime format_1f).

Lemma count_app (p : event ndarray -> bool) a b :
  count p (a ++ b)%list = (count p a + count p b)%nat.
Proof. unfold count. rewrite filter_app, length_app. reflexivity. Qed.

Lemma releases_log l msg : count is_release (@log ndarray l msg) = 0%nat.
Proof. unfold log. destruct (Logging.enabled l); reflexivity. Qed.

Lemma releases_send_photo (frame : ndarray) caption ctime o :
  count is_release (send_photo TELEGRAM_TOKEN CHAT_ID frame caption ctime o) = 0%nat.
Proof. destruct o as [[[] m]|[[] m]|]; reflexivity. Qed.

Lemma releases_process_frame (d : @MotionDetector ndarray MOG2) frame :
  count is_release (snd (process_frame cv2 d frame)) = 0%nat.
Proof.
  unfold process_frame. destruct (detect cv2 (back_sub d) frame) as [bs' [b|e]];
    reflexivity.
Qed.

(** A cycle releases the camera exactly when it leaves the loop. *)
Lemma releases_run_cycle d w :
  count is_release (snd (fst (cycle d w)))
  = match snd (cycle d w) with Left => 1%nat | Continue => 0%nat end.
Proof.
  unfold run_cycle, run_finally.
  destruct (read w) as [frame| |e|]; cbn [fst snd];
    try (rewrite count_app, releases_log; reflexivity).
  pose proof (releases_process_frame (set_latest_frame (Some (copy frame)) d) frame) as P.
  destruct (process_frame cv2 (set_latest_frame (Some (copy frame)) d) frame)
    as [[d' m] ev]. cbn [snd] in P.
  destruct (m && cooldown_over (time_time w) (last_sent d')); cbn [fst snd];
    rewrite !count_app, ?releases_log, ?releases_send_photo, P; reflexivity.
Qed.

Lemma releases_scheduler_fire (d : @MotionDetector ndarray MOG2) w :
  count is_release (scheduler_fire TELEGRAM_TOKEN CHAT_ID d w) = 0%nat.
Proof.
  unfold scheduler_fire. destruct (latest_frame d); [|reflexivity].
  rewrite count_app, releases_log, releases_send_photo. reflexivity.
Qed.

(** Ending the process keeps the count right: the cancelled loop runs its
    [finally] clause. *)
Lemma shutdown_released_iff_left (s : @System ndarray MOG2) status ev :
  count is_release ev = 0%nat ->
  released_iff_left s -> released_iff_left (shutdown s status ev).
Proof.
  unfold released_iff_left, shutdown. intros E I.
  destruct (capture s); cbn [cancel_capture trace capture];
    rewrite !count_app, E, I; reflexivity.
Qed.

Lemma step_released_iff_left s t :
  released_iff_left s -> released_iff_left (tick_step s t).
Proof.
  intros I. unfold step.
  destruct (halted s); [exact I|].
  destruct t as [w|now|w|];
    [| | |apply shutdown_released_iff_left; [reflexivity|exact I]];
    unfold released_iff_left in *.
  - unfold capture_tick.
    pose proof (releases_run_cycle (detector s) w) as R.
    destruct (capture s) eqn:C; [| |rewrite C; exact I];
      destruct (cycle (detector s) w) as [[d' ev] flow]; cbn [fst snd] in R;
      cbn [trace capture]; rewrite !count_app, ?releases_log, R, I;
      destruct flow; reflexivity.
  - unfold plan_tick, scheduler_plan, main_except.
    destruct (scheduler s); [| |exact I];
      (destruct (next_fire now) as [f|e]; cbn [bind];
       [cbn [trace capture]; rewrite !count_app, ?releases_log, I;
        destruct (capture s); reflexivity
       |apply shutdown_released_iff_left; [|exact I];
        destruct (class_of e); rewrite ?count_app, ?releases_log; reflexivity]).
  - unfold fire_tick. destruct (scheduler s); try exact I.
    cbn [trace capture]. rewrite count_app, releases_scheduler_fire, I.
    destruct (capture s); reflexivity.
Qed.

Lemma shutdown_not_looping (s : @System ndarray MOG2) status ev :
  capture (shutdown s status ev) <> CaptureLoop.
Proof.
  rewrite shutdown_capture. destruct (capture s); discriminate.
Qed.

(** Once the process has ended, the capture loop is not running. *)
Lemma step_ended_not_looping s t :
  (halted s = true -> capture s <> CaptureLoop) ->
  halted (tick_step s t) = true -> capture (tick_step s t) <> CaptureLoop.
Proof.
  intros J. unfold step. destruct (halted s) eqn:Hh; [intros _; apply J; reflexivity|].
  destruct t as [w|now|w|].
  - unfold capture_tick. destruct (capture s);
      try (rewrite Hh; discriminate);
      destruct (cycle (detector s) w) as [[d' ev] flow]; discriminate.
  - unfold plan_tick.
    destruct (scheduler s); try (rewrite Hh; discriminate);
      (destruct (scheduler_plan strftime format_1f now) as [[f ev]|e];
       [discriminate|intros _; apply shutdown_not_looping]).
  - unfold fire_tick. destruct (scheduler s); try (rewrite Hh; discriminate);
      discriminate.
  - intros _. apply shutdown_not_looping.
Qed.

(** X10.  The camera is released exactly once, when the capture loop is
    left (failed read, exception, interrupt caught in the loop, or
    cancellation when the process ends), and not before: after any run the
    trace holds one [cap.release()] if the loop has been left and none if
    it has not.  Once left, the loop takes no further turn: a capture tick
    changes nothing.  And the process never ends with the loop still
    running: whenever it has ended, a loop that had started has released
    the camera. *)
Theorem X10_camera_is_released_once isOpened d ev ticks :
  MotionDetector_init cv2 TELEGRAM_TOKEN CHAT_ID isOpened = Ok (d, ev) ->
  let s := run (boot d ev) ticks in
  count is_release (trace s)
    = match capture s with CaptureDone => 1%nat | _ => 0%nat end /\
  (capture s = CaptureDone -> forall w, tick_step s (Capture w) = s) /\
  (halted s = true -> capture s <> CaptureLoop).
Proof.
  intros H s.
  assert (I0 : released_iff_left (boot d ev)).
  { unfold MotionDetector_init in H.
    destruct ((TELEGRAM_TOKEN =? "") || negb (PyStr.contains TELEGRAM_TOKEN ":"));
      [discriminate|].
    injection H as _ <-. reflexivity. }
  assert (G : forall ticks (s0 : @System ndarray MOG2),
             released_iff_left s0 -> released_iff_left (run s0 ticks)).
  { clear. induction ticks as [|t ticks IH]; intros s0 I; [exact I|].
    apply IH, step_released_iff_left, I. }
  assert (K : forall ticks (s0 : @System ndarray MOG2),
             (halted s0 = true -> capture s0 <> CaptureLoop) ->
             halted (run s0 ticks) = true -> capture (run s0 ticks) <> CaptureLoop).
  { clear. induction ticks as [|t ticks IH]; intros s0 J; [exact J|].
    apply IH. apply step_ended_not_looping. exact J. }
  split; [exact (G ticks _ I0)|]. split.
  - intros C w. unfold step, capture_tick. rewrite C.
    destruct (halted s); reflexivity.
  - apply K. discriminate.
Qed.

End Release.

Lemma X10_camera_is_released_once_witness :
  count is_release
    (trace
       (exec Bench.cv2 Bench.TOKEN Bench.CHAT Bench.strftime Bench.format_1f
          (boot Bench.fresh Bench.startup_log)
          [Capture (Bench.busy 10 BotReturned);
           Capture {| read := NoFrame; time_time := 11;
                      time_ctime := "Thu Jan  1 00:00:11 1970"; send := BotReturned |};
           Capture (Bench.busy 20 BotReturned);
           Capture {| read := NoFrame; time_time := 21;
                      time_ctime := "Thu Jan  1 00:00:21 1970"; send := BotReturned |}]))
  = 1%nat.
Proof.
  destruct (X10_camera_is_released_once Bench.cv2 Bench.TOKEN Bench.CHAT
              Bench.strftime Bench.format_1f true Bench.fresh Bench.startup_log
              [Capture (Bench.busy 10 BotReturned);
               Capture {| read := NoFrame; time_time := 11;
                          time_ctime := "Thu Jan  1 00:00:11 1970"; send := BotReturned |};
               Capture (Bench.busy 20 BotReturned);
               Capture {| read := NoFrame; time_time := 21;
                          time_ctime := "Thu Jan  1 00:00:21 1970"; send := BotReturned |}]
              eq_refl) as (R & _).
  exact R.
Defined.

(** ** The daily photo and the end of the calendar (lines 164-196) *)

Section DailyPhoto.
Import DateTime.
Context {ndarray contour MOG2 : Type}.
Variable cv2 : cv2_module ndarray contour MOG2.
Variables TELEGRAM_TOKEN CHAT_ID : string.
Variable strftime : datetime -> string.
Variable format_1f : Q -> string.

Local Abbreviation tick_step := (step cv2 TELEGRAM_TOKEN CHAT_ID strftime format_1f).
Local Abbreviation run := (exec cv2 TELEGRAM_TOKEN CHAT_ID strftime format_1f).
Local Abbreviation frames :=
  (frames_read cv2 TELEGRAM_TOKEN CHAT_ID strftime format_1f).

(** X11.  When the scheduler wakes up after a run in which the camera
    delivered frames, the photo it sends is the newest of them, also when
    the capture loop has been left since; the caption is
    ["Daily photo at 14:00:00 (<stamp>)"].  The firing leaves the detector as
    it is: the daily photo does not touch the cooldown of the motion
    alerts. *)
Theorem X11_daily_photo_is_the_newest_frame
    (s0 : @System ndarray MOG2) ticks older newest scheduled w :
  frames s0 ticks = (older ++ [newest])%list ->
  halted (run s0 ticks) = false ->
  scheduler (run s0 ticks) = SchedulerSleeping scheduled ->
  let s := run s0 ticks in
  let s' := tick_step s (Fire w) in
  trace s' =
    app (trace s)
      (Logged Logging.INFO "Sending scheduled daily photo"
       :: send_photo TELEGRAM_TOKEN CHAT_ID newest
            (Some ("Daily photo at 14:00:00 (" ++ fire_stamp w ++ ")"))
            (fire_ctime w) (fire_send w)) /\
  (forall photo text,
      In (BotSendPhoto photo text)
         (send_photo TELEGRAM_TOKEN CHAT_ID newest
            (Some ("Daily photo at 14:00:00 (" ++ fire_stamp w ++ ")"))
            (fire_ctime w) (fire_send w)) ->
      photo = newest /\
      text = "Daily photo at 14:00:00 (" ++ fire_stamp w ++ ")") /\
  detector s' = detector s /\
  capture s' = capture s /\
  scheduler s' = SchedulerTop.
Proof.
  intros Hf Hh Hs s s'.
  assert (L : latest_frame (detector s) = Some newest).
  { unfold s. rewrite exec_latest_frame, Hf, map_app. cbn [map].
    apply last_last. }
  assert (E : s' = {| detector := detector s; capture := capture s;
                      scheduler := SchedulerTop; exited := None;
                      trace := (trace s
                                ++ scheduler_fire TELEGRAM_TOKEN CHAT_ID (detector s) w)%list |}).
  { fold s in Hh, Hs. unfold s', step, fire_tick. rewrite Hh, Hs. reflexivity. }
  rewrite E. cbn [trace detector capture scheduler].
  unfold scheduler_fire. rewrite L.
  split; [reflexivity|]. split; [|repeat split].
  intros photo text H.
  destruct (fire_send w) as [e|e|]; cbn [send_photo] in H.
  - destruct H as [H|H]; [discriminate|].
    unfold send_photo_except in H.
    destruct (class_of e); destruct H as [H|[]]; discriminate.
  - destruct H as [H|[H|H]]; [discriminate|injection H as <- <-; auto|].
    unfold send_photo_except in H.
    destruct (class_of e); destruct H as [H|[]]; discriminate.
  - destruct H as [H|[H|[H|[H|[]]]]]; try discriminate.
    injection H as <- <-. auto.
Qed.




End DailyPhoto.

Lemma X11_daily_photo_is_the_newest_frame_witness :
  detector
    (step Bench.cv2 Bench.TOKEN Bench.CHAT Bench.strftime Bench.format_1f
       (exec Bench.cv2 Bench.TOKEN Bench.CHAT Bench.strftime Bench.format_1f
          Bench.asleep
          [Capture (Bench.busy 10 BotReturned);
           Capture {| read := FrameRead (Some [7]); time_time := 11;
                      time_ctime := "Thu Jan  1 00:00:11 1970"; send := BotReturned |};
           Capture {| read := NoFrame; time_time := 12;
                      time_ctime := "Thu Jan  1 00:00:12 1970"; send := BotReturned |}])
       (Fire Bench.wake))
  = detector
      (exec Bench.cv2 Bench.TOKEN Bench.CHAT Bench.strftime Bench.format_1f
         Bench.asleep
         [Capture (Bench.busy 10 BotReturned);
          Capture {| read := FrameRead (Some [7]); time_time := 11;
                     time_ctime := "Thu Jan  1 00:00:11 1970"; send := BotReturned |};
          Capture {| read := NoFrame; time_time := 12;
                     time_ctime := "Thu Jan  1 00:00:12 1970"; send := BotReturned |}]).
Proof.
  destruct (X11_daily_photo_is_the_newest_frame Bench.cv2 Bench.TOKEN Bench.CHAT
              Bench.strftime Bench.format_1f Bench.asleep
              [Capture (Bench.busy 10 BotReturned);
               Capture {| read := FrameRead (Some [7]); time_time := 11;
                          time_ctime := "Thu Jan  1 00:00:11 1970"; send := BotReturned |};
               Capture {| read := NoFrame; time_time := 12;
                          time_ctime := "Thu Jan  1 00:00:12 1970"; send := BotReturned |}]
              [Some [6000]] (Some [7])
              (DateTime.combine 739007 (DateTime.dt_time 14 0)) Bench.wake
              eq_refl eq_refl eq_refl) as (_ & _ & D & _).
  exact D.
Defined.

